(** * The Git Graph view controller (src/gitGraphView.ts)

    A shallow embedding of the [GitGraphView] class: the message
    dispatcher [respondToMessage], the render algorithm
    [getHtmlForWebview], the visibility callback and the repository-set
    callback, together with the properties the specification states
    about them.

    The controller talks to collaborators it does not implement (the
    data source, the extension state, the repository manager, the avatar
    manager, the helpers of [utils]).  They are represented by an
    environment that answers every call; a call either returns a value
    or throws (an awaited promise resolves or rejects).  A handler is a
    function from the controller's fields and the state of the outside
    world to an outcome, the new fields, the new world and the history
    of what the handler did. *)

From Stdlib Require Import ZArith List.
From stdpp Require Import base option list strings pretty gmap.

Set Warnings "-register-all".
Local Open Scope string_scope.
Local Open Scope Z_scope.

(** ** Values *)

(** Data that the controller passes through without looking inside
    (settings, commit details, view state, ...). *)
Inductive JsValue : Type :=
| JsNull
| JsBool (b : bool)
| JsNumber (z : Z)
| JsString (s : string)
| JsArray (items : list JsValue)
| JsObject (fields : list (string * JsValue)).

(** [ErrorInfo = string | null]; [None] is the success sentinel. *)
Definition ErrorInfo : Type := option string.

(** JavaScript truthiness of an [ErrorInfo], as tested by [if (e)]:
    [null] and the empty string are both falsy. *)
Definition truthy (e : ErrorInfo) : bool :=
  match e with
  | None => false
  | Some s => negb (String.eqb s "")
  end.

(** The members of [GitConfigLocation] and [GitPushBranchMode] that the
    controller names; the remaining members are only passed through. *)
Inductive GitConfigLocation : Type :=
| Local
| OtherLocation (tag : string).

Inductive GitPushBranchMode : Type :=
| Normal
| OtherMode (tag : string).

Inductive RefLabelAlignment : Type :=
| AlignmentNormal
| BranchesAlignedToGraphAndTagsOnRight
| OtherAlignment (tag : string).

(** [LoadGitGraphViewTo = { repo, commitDetails } | null]. *)
Record LoadViewTarget : Type := {
  target_repo : string;
  target_commitDetails : option JsValue
}.

Definition LoadGitGraphViewTo : Type := option LoadViewTarget.

(** [GitRepoSet]: an object keyed by repository path. *)
Abbreviation GitRepoSet := (gmap string JsValue).

(** The result of [dataSource.getRepoInfo]: the controller reads and
    clears [error] and spreads everything else into the response. *)
Record GitRepoInfo : Type := {
  repoInfo_data : JsValue;
  repoInfo_error : ErrorInfo
}.

Definition clear_error (info : GitRepoInfo) : GitRepoInfo :=
  {| repoInfo_data := repoInfo_data info; repoInfo_error := None |}.

(** ** Requests *)

(** [RequestMessage]: one variant per command, with the fields that the
    dispatcher reads. *)
Inductive RequestMessage : Type :=
| RequestAddRemote (repo name url : string) (pushUrl : option string) (fetch : bool)
| RequestAddTag (repo tagName commitHash : string) (lightweight : bool)
    (message : string) (pushToRemote : option string)
| RequestApplyStash (repo selector : string) (reinstateIndex : bool)
| RequestBranchFromStash (repo selector branchName : string)
| RequestCheckoutBranch (repo branchName : string) (remoteBranch : option string)
| RequestCheckoutCommit (repo commitHash : string)
| RequestCherrypickCommit (repo commitHash : string) (parentIndex : Z)
    (recordOrigin noCommit : bool)
| RequestCleanUntrackedFiles (repo : string) (directories : bool)
| RequestCodeReviewFileReviewed (repo id filePath : string)
| RequestCommitDetails (repo commitHash : string) (hasParents : bool)
    (stash : option JsValue) (avatarEmail : option string) (refresh : bool)
| RequestCompareCommits (repo commitHash compareWithHash fromHash toHash : string)
    (refresh : bool)
| RequestCopyFilePath (repo filePath : string)
| RequestCopyToClipboard (type data : string)
| RequestCreateArchive (repo ref : string)
| RequestCreateBranch (repo branchName commitHash : string) (checkout : bool)
| RequestCreatePullRequest (repo : string) (config : JsValue)
    (sourceRemote sourceOwner sourceRepo sourceBranch : string) (push : bool)
| RequestDeleteBranch (repo branchName : string) (forceDelete : bool)
    (deleteOnRemotes : list string)
| RequestDeleteRemote (repo name : string)
| RequestDeleteRemoteBranch (repo branchName remote : string)
| RequestDeleteTag (repo tagName : string) (deleteOnRemote : option string)
| RequestDeleteUserDetails (repo : string) (name email : bool)
    (location : GitConfigLocation)
| RequestDropCommit (repo commitHash : string)
| RequestDropStash (repo selector : string)
| RequestEditRemote (repo nameOld nameNew urlOld urlNew : string)
    (pushUrlOld pushUrlNew : option string)
| RequestEditUserDetails (repo name email : string) (location : GitConfigLocation)
    (deleteLocalName deleteLocalEmail : bool)
| RequestFetch (repo : string) (name : option string) (prune : bool)
| RequestFetchAvatar (email repo : string) (remote : option string) (commits : list string)
| RequestFetchIntoLocalBranch (repo remote remoteBranch localBranch : string)
| RequestEndCodeReview (repo id : string)
| RequestGetSettings (repo : string)
| RequestLoadCommits (refreshId : Z) (repo : string) (branches : option (list string))
    (maxCommits : Z)
    (showTags showRemoteBranches includeCommitsMentionedByReflogs onlyFollowFirstParent : bool)
    (remotes hideRemotes : list string) (stashes : JsValue)
| RequestLoadRepoInfo (refreshId : Z) (repo : string) (showRemoteBranches : bool)
    (hideRemotes : list string)
| RequestLoadRepos (check : bool)
| RequestMerge (repo obj : string) (actionOn : JsValue)
    (createNewCommit squash noCommit : bool)
| RequestOpenExtensionSettings
| RequestOpenFile (repo filePath : string)
| RequestPopStash (repo selector : string) (reinstateIndex : bool)
| RequestPruneRemote (repo name : string)
| RequestPullBranch (repo branchName remote : string) (createNewCommit squash : bool)
| RequestPushBranch (repo branchName remote : string) (setUpstream : bool)
    (mode : GitPushBranchMode)
| RequestPushStash (repo message : string) (includeUntracked : bool)
| RequestPushTag (repo tagName remote : string)
| RequestRebase (repo obj : string) (actionOn : JsValue) (ignoreDate interactive : bool)
| RequestRenameBranch (repo oldName newName : string)
| RequestRescanForRepos
| RequestResetToCommit (repo commit : string) (resetMode : JsValue)
| RequestRevertCommit (repo commitHash : string) (parentIndex : Z)
| RequestSetGlobalViewState (state : JsValue)
| RequestSetRepoState (repo : string) (state : JsValue)
| RequestShowErrorMessage (message : string)
| RequestStartCodeReview (repo id : string) (files : JsValue)
    (lastViewedFile : option string) (commitHash : string)
    (compareWithHash : option string)
| RequestTagDetails (repo tagName commitHash : string)
| RequestViewDiff (repo fromHash toHash oldFilePath newFilePath : string) (type : JsValue)
| RequestViewFileAtRevision (repo hash filePath : string)
| RequestViewScm.

(** [msg.command]: the discriminator the dispatcher switches on. *)
Definition request_command (msg : RequestMessage) : string :=
  match msg with
  | RequestAddRemote _ _ _ _ _ => "addRemote"
  | RequestAddTag _ _ _ _ _ _ => "addTag"
  | RequestApplyStash _ _ _ => "applyStash"
  | RequestBranchFromStash _ _ _ => "branchFromStash"
  | RequestCheckoutBranch _ _ _ => "checkoutBranch"
  | RequestCheckoutCommit _ _ => "checkoutCommit"
  | RequestCherrypickCommit _ _ _ _ _ => "cherrypickCommit"
  | RequestCleanUntrackedFiles _ _ => "cleanUntrackedFiles"
  | RequestCodeReviewFileReviewed _ _ _ => "codeReviewFileReviewed"
  | RequestCommitDetails _ _ _ _ _ _ => "commitDetails"
  | RequestCompareCommits _ _ _ _ _ _ => "compareCommits"
  | RequestCopyFilePath _ _ => "copyFilePath"
  | RequestCopyToClipboard _ _ => "copyToClipboard"
  | RequestCreateArchive _ _ => "createArchive"
  | RequestCreateBranch _ _ _ _ => "createBranch"
  | RequestCreatePullRequest _ _ _ _ _ _ _ => "createPullRequest"
  | RequestDeleteBranch _ _ _ _ => "deleteBranch"
  | RequestDeleteRemote _ _ => "deleteRemote"
  | RequestDeleteRemoteBranch _ _ _ => "deleteRemoteBranch"
  | RequestDeleteTag _ _ _ => "deleteTag"
  | RequestDeleteUserDetails _ _ _ _ => "deleteUserDetails"
  | RequestDropCommit _ _ => "dropCommit"
  | RequestDropStash _ _ => "dropStash"
  | RequestEditRemote _ _ _ _ _ _ _ => "editRemote"
  | RequestEditUserDetails _ _ _ _ _ _ => "editUserDetails"
  | RequestFetch _ _ _ => "fetch"
  | RequestFetchAvatar _ _ _ _ => "fetchAvatar"
  | RequestFetchIntoLocalBranch _ _ _ _ => "fetchIntoLocalBranch"
  | RequestEndCodeReview _ _ => "endCodeReview"
  | RequestGetSettings _ => "getSettings"
  | RequestLoadCommits _ _ _ _ _ _ _ _ _ _ _ => "loadCommits"
  | RequestLoadRepoInfo _ _ _ _ => "loadRepoInfo"
  | RequestLoadRepos _ => "loadRepos"
  | RequestMerge _ _ _ _ _ _ => "merge"
  | RequestOpenExtensionSettings => "openExtensionSettings"
  | RequestOpenFile _ _ => "openFile"
  | RequestPopStash _ _ _ => "popStash"
  | RequestPruneRemote _ _ => "pruneRemote"
  | RequestPullBranch _ _ _ _ _ => "pullBranch"
  | RequestPushBranch _ _ _ _ _ => "pushBranch"
  | RequestPushStash _ _ _ => "pushStash"
  | RequestPushTag _ _ _ => "pushTag"
  | RequestRebase _ _ _ _ _ => "rebase"
  | RequestRenameBranch _ _ _ => "renameBranch"
  | RequestRescanForRepos => "rescanForRepos"
  | RequestResetToCommit _ _ _ => "resetToCommit"
  | RequestRevertCommit _ _ _ => "revertCommit"
  | RequestSetGlobalViewState _ => "setGlobalViewState"
  | RequestSetRepoState _ _ => "setRepoState"
  | RequestShowErrorMessage _ => "showErrorMessage"
  | RequestStartCodeReview _ _ _ _ _ _ => "startCodeReview"
  | RequestTagDetails _ _ _ => "tagDetails"
  | RequestViewDiff _ _ _ _ _ _ => "viewDiff"
  | RequestViewFileAtRevision _ _ _ => "viewFileAtRevision"
  | RequestViewScm => "viewScm"
  end.

(** ** Responses *)

(** The fields of a response besides [command].  Where the source
    spreads a collaborator's result into the object literal
    ([...await f()]), the result is kept as one [data] field. *)
Inductive ResponseBody : Type :=
| WithError (error : ErrorInfo)
| WithErrors (errors : list ErrorInfo)
| CommitDetailsBody (data : JsValue) (avatar : option string)
    (codeReview : option JsValue) (refresh : bool)
| CompareCommitsBody (commitHash compareWithHash : string) (data : JsValue)
    (codeReview : option JsValue) (refresh : bool)
| CopyToClipboardBody (type : string) (error : ErrorInfo)
| CreatePullRequestBody (push : bool) (errors : list ErrorInfo)
| GetSettingsBody (data : JsValue)
| LoadCommitsBody (refreshId : Z) (onlyFollowFirstParent : bool) (data : JsValue)
| LoadRepoInfoBody (refreshId : Z) (repoInfo : GitRepoInfo) (isRepo : bool)
| LoadReposBody (repos : GitRepoSet) (lastActiveRepo : option string)
    (loadViewTo : LoadGitGraphViewTo)
| MergeBody (actionOn : JsValue) (error : ErrorInfo)
| RebaseBody (actionOn : JsValue) (interactive : bool) (error : ErrorInfo)
| StartCodeReviewBody (commitHash : string) (compareWithHash : option string)
    (data : JsValue)
| TagDetailsBody (tagName commitHash : string) (data : JsValue)
| FetchAvatarBody (email image : string)
| RefreshBody.

(** [ResponseMessage]: the object literal handed to [sendMessage]. *)
Record ResponseMessage : Type := {
  command : string;
  body : ResponseBody
}.

(** The [errors] list of a response, when it has one. *)
Definition response_errors (r : ResponseMessage) : option (list ErrorInfo) :=
  match body r with
  | WithErrors errors => Some errors
  | CreatePullRequestBody _ errors => Some errors
  | _ => None
  end.


(** The [refreshId] field of a response, when it has one. *)
Definition response_refreshId (r : ResponseMessage) : option Z :=
  match body r with
  | LoadCommitsBody refreshId _ _ => Some refreshId
  | LoadRepoInfoBody refreshId _ _ => Some refreshId
  | _ => None
  end.

(** ** Collaborator calls *)

(** Calls whose result is an [ErrorInfo] (a promise of one, when
    awaited): the sub-operations of the commands. *)
Inductive Operation : Type :=
| dataSource_addRemote (repo name url : string) (pushUrl : option string) (fetch : bool)
| dataSource_addTag (repo tagName commitHash : string) (lightweight : bool) (message : string)
| dataSource_applyStash (repo selector : string) (reinstateIndex : bool)
| dataSource_branchFromStash (repo selector branchName : string)
| dataSource_checkoutBranch (repo branchName : string) (remoteBranch : option string)
| dataSource_checkoutCommit (repo commitHash : string)
| dataSource_cherrypickCommit (repo commitHash : string) (parentIndex : Z)
    (recordOrigin noCommit : bool)
| dataSource_cleanUntrackedFiles (repo : string) (directories : bool)
| dataSource_createBranch (repo branchName commitHash : string) (checkout : bool)
| dataSource_deleteBranch (repo branchName : string) (forceDelete : bool)
| dataSource_deleteRemote (repo name : string)
| dataSource_deleteRemoteBranch (repo branchName remote : string)
| dataSource_deleteTag (repo tagName : string) (deleteOnRemote : option string)
| dataSource_dropCommit (repo commitHash : string)
| dataSource_dropStash (repo selector : string)
| dataSource_editRemote (repo nameOld nameNew urlOld urlNew : string)
    (pushUrlOld pushUrlNew : option string)
| dataSource_fetch (repo : string) (name : option string) (prune : bool)
| dataSource_fetchIntoLocalBranch (repo remote remoteBranch localBranch : string)
| dataSource_merge (repo obj : string) (actionOn : JsValue)
    (createNewCommit squash noCommit : bool)
| dataSource_popStash (repo selector : string) (reinstateIndex : bool)
| dataSource_pruneRemote (repo name : string)
| dataSource_pullBranch (repo branchName remote : string) (createNewCommit squash : bool)
| dataSource_pushBranch (repo branchName remote : string) (setUpstream : bool)
    (mode : GitPushBranchMode)
| dataSource_pushStash (repo message : string) (includeUntracked : bool)
| dataSource_pushTag (repo tagName remote : string)
| dataSource_rebase (repo obj : string) (actionOn : JsValue) (ignoreDate interactive : bool)
| dataSource_renameBranch (repo oldName newName : string)
| dataSource_resetToCommit (repo commit : string) (resetMode : JsValue)
| dataSource_revertCommit (repo commitHash : string) (parentIndex : Z)
| dataSource_setConfigValue (repo key value : string) (location : GitConfigLocation)
| dataSource_unsetConfigValue (repo key : string) (location : GitConfigLocation)
| extensionState_setGlobalViewState (state : JsValue)
| utils_archive (repo ref : string)
| utils_copyFilePathToClipboard (repo filePath : string)
| utils_copyToClipboard (data : string)
| utils_createPullRequest (config : JsValue) (sourceOwner sourceRepo sourceBranch : string)
| utils_openExtensionSettings
| utils_openFile (repo filePath : string)
| utils_viewDiff (repo fromHash toHash oldFilePath newFilePath : string) (type : JsValue)
| utils_viewFileAtRevision (repo hash filePath : string)
| utils_viewScm.

(** What [getConfig()] returns, as far as the render algorithm looks
    into it; the other settings are copied into the initial state. *)
Record Config : Type := {
  refLabelAlignment : RefLabelAlignment;
  config_fetchAvatars : bool;
  config_graphColours : list string;
  config_settings : JsValue
}.

(** The remaining calls, with the type of what each returns. *)
Inductive Query : Type :=
| avatarManager_fetchAvatarImage (email repo : string) (remote : option string)
    (commits : list string)
| avatarManager_getAvatarImage (email : string)
| dataSource_getCommitComparison (repo fromHash toHash : string)
| dataSource_getCommitDetails (repo commitHash : string) (hasParents : bool)
| dataSource_getCommits (repo : string) (branches : option (list string)) (maxCommits : Z)
    (showTags showRemoteBranches includeCommitsMentionedByReflogs onlyFollowFirstParent : bool)
    (remotes hideRemotes : list string) (stashes : JsValue)
| dataSource_getRepoInfo (repo : string) (showRemoteBranches : bool)
    (hideRemotes : list string)
| dataSource_getRepoSettings (repo : string)
| dataSource_getStashDetails (repo commitHash : string) (stash : JsValue)
| dataSource_getTagDetails (repo tagName : string)
| dataSource_getUncommittedDetails (repo : string)
| dataSource_isGitExecutableUnknown
| dataSource_repoRoot (repo : string)
| extensionState_endCodeReview (repo id : string)
| extensionState_getCodeReview (repo id : string)
| extensionState_getGlobalViewState
| extensionState_getLastActiveRepo
| extensionState_isAvatarStorageAvailable
| extensionState_setLastActiveRepo (repo : string)
| extensionState_startCodeReview (repo id : string) (files : JsValue)
    (lastViewedFile : option string)
| extensionState_updateCodeReviewFileReviewed (repo id filePath : string)
| repoManager_checkReposExist
| repoManager_getRepos
| repoManager_searchWorkspaceForRepos
| repoManager_setRepoState (repo : string) (state : JsValue)
| utils_getNonce
| utils_showErrorMessage (message : string)
| config_getConfig
| webview_cspSource
| vscode_Uri_file (pathComps : list string) (scheme : option string).

Definition answer (q : Query) : Type :=
  match q with
  | avatarManager_getAvatarImage _ => option string
  | dataSource_getCommitComparison _ _ _ => JsValue
  | dataSource_getCommitDetails _ _ _ => JsValue
  | dataSource_getCommits _ _ _ _ _ _ _ _ _ _ => JsValue
  | dataSource_getRepoInfo _ _ _ => GitRepoInfo
  | dataSource_getRepoSettings _ => JsValue
  | dataSource_getStashDetails _ _ _ => JsValue
  | dataSource_getTagDetails _ _ => JsValue
  | dataSource_getUncommittedDetails _ => JsValue
  | dataSource_isGitExecutableUnknown => bool
  | dataSource_repoRoot _ => option string
  | extensionState_getCodeReview _ _ => option JsValue
  | extensionState_getGlobalViewState => JsValue
  | extensionState_getLastActiveRepo => option string
  | extensionState_isAvatarStorageAvailable => bool
  | extensionState_startCodeReview _ _ _ _ => JsValue
  | repoManager_checkReposExist => bool
  | repoManager_getRepos => GitRepoSet
  | repoManager_searchWorkspaceForRepos => bool
  | utils_getNonce => string
  | config_getConfig => Config
  | webview_cspSource => string
  | vscode_Uri_file _ _ => string
  | avatarManager_fetchAvatarImage _ _ _ _
  | extensionState_endCodeReview _ _
  | extensionState_setLastActiveRepo _
  | extensionState_updateCodeReviewFileReviewed _ _ _
  | repoManager_setRepoState _ _
  | utils_showErrorMessage _ => unit
  end.

(** How a call ends: it returns a value (the awaited promise
    resolves) or it throws (the awaited promise rejects). *)
Inductive Settled (A : Type) : Type :=
| Resolved (a : A)
| Rejected.

Arguments Resolved {A} a.
Arguments Rejected {A}.

(** The outside world: its state, how it answers each call, and the
    constants the controller imports. *)
Record Environment : Type := {
  World : Type;
  perform : Operation -> World -> Settled ErrorInfo * World;
  ask : forall q : Query, World -> Settled (answer q) * World;
  UNCOMMITTED : string;
  GIT_CONFIG_USER_NAME : string;
  GIT_CONFIG_USER_EMAIL : string
}.

(** No call of the environment ever throws. *)
Definition never_rejects (env : Environment) : Prop :=
  (forall op w, exists e w', perform env op w = (Resolved e, w')) /\
  (forall q w, exists a w', ask env q w = (Resolved a, w')).

(** ** The controller's fields *)

(** The mutable fields of [GitGraphView], the read-only [extensionPath],
    and [panel_visible], which stands for [this.panel.visible]: the host
    sets it, the controller only reads it. *)
Record View : Type := {
  extensionPath : string;
  isGraphViewLoaded : bool;
  isPanelVisible : bool;
  currentRepo : option string;
  loadViewTo : LoadGitGraphViewTo;
  loadRepoInfoRefreshId : Z;
  loadCommitsRefreshId : Z;
  panel_visible : bool
}.

Definition set_isGraphViewLoaded (b : bool) (v : View) : View :=
  {| extensionPath := extensionPath v; isGraphViewLoaded := b;
     isPanelVisible := isPanelVisible v; currentRepo := currentRepo v;
     loadViewTo := loadViewTo v; loadRepoInfoRefreshId := loadRepoInfoRefreshId v;
     loadCommitsRefreshId := loadCommitsRefreshId v; panel_visible := panel_visible v |}.

Definition set_isPanelVisible (b : bool) (v : View) : View :=
  {| extensionPath := extensionPath v; isGraphViewLoaded := isGraphViewLoaded v;
     isPanelVisible := b; currentRepo := currentRepo v;
     loadViewTo := loadViewTo v; loadRepoInfoRefreshId := loadRepoInfoRefreshId v;
     loadCommitsRefreshId := loadCommitsRefreshId v; panel_visible := panel_visible v |}.

Definition set_currentRepo (r : option string) (v : View) : View :=
  {| extensionPath := extensionPath v; isGraphViewLoaded := isGraphViewLoaded v;
     isPanelVisible := isPanelVisible v; currentRepo := r;
     loadViewTo := loadViewTo v; loadRepoInfoRefreshId := loadRepoInfoRefreshId v;
     loadCommitsRefreshId := loadCommitsRefreshId v; panel_visible := panel_visible v |}.

Definition set_loadViewTo (t : LoadGitGraphViewTo) (v : View) : View :=
  {| extensionPath := extensionPath v; isGraphViewLoaded := isGraphViewLoaded v;
     isPanelVisible := isPanelVisible v; currentRepo := currentRepo v;
     loadViewTo := t; loadRepoInfoRefreshId := loadRepoInfoRefreshId v;
     loadCommitsRefreshId := loadCommitsRefreshId v; panel_visible := panel_visible v |}.

Definition set_loadRepoInfoRefreshId (n : Z) (v : View) : View :=
  {| extensionPath := extensionPath v; isGraphViewLoaded := isGraphViewLoaded v;
     isPanelVisible := isPanelVisible v; currentRepo := currentRepo v;
     loadViewTo := loadViewTo v; loadRepoInfoRefreshId := n;
     loadCommitsRefreshId := loadCommitsRefreshId v; panel_visible := panel_visible v |}.

Definition set_loadCommitsRefreshId (n : Z) (v : View) : View :=
  {| extensionPath := extensionPath v; isGraphViewLoaded := isGraphViewLoaded v;
     isPanelVisible := isPanelVisible v; currentRepo := currentRepo v;
     loadViewTo := loadViewTo v; loadRepoInfoRefreshId := loadRepoInfoRefreshId v;
     loadCommitsRefreshId := n; panel_visible := panel_visible v |}.

Definition set_panel_visible (b : bool) (v : View) : View :=
  {| extensionPath := extensionPath v; isGraphViewLoaded := isGraphViewLoaded v;
     isPanelVisible := isPanelVisible v; currentRepo := currentRepo v;
     loadViewTo := loadViewTo v; loadRepoInfoRefreshId := loadRepoInfoRefreshId v;
     loadCommitsRefreshId := loadCommitsRefreshId v; panel_visible := b |}.

(** ** What a render produces *)

(** [initialState.config]: three settings are computed, the colours are
    also used for the style sheet, the rest is copied from [getConfig()]
    (the constant [grid] is left out). *)
Record GitGraphViewConfig : Type := {
  branchLabelsAlignedToGraph : bool;
  fetchAvatars : bool;
  graphColours : list string;
  tagLabelsOnRight : bool;
  settings : JsValue
}.

Record GitGraphViewInitialState : Type := {
  initial_config : GitGraphViewConfig;
  initial_lastActiveRepo : option string;
  initial_loadViewTo : LoadGitGraphViewTo;
  initial_repos : GitRepoSet;
  initial_loadRepoInfoRefreshId : Z;
  initial_loadCommitsRefreshId : Z
}.

(** The three bodies of the document: the fixed "unable to find Git"
    surface, the interactive shell with the embedded states, and the
    "no repositories" surface with its re-scan button. *)
Inductive Body : Type :=
| UnableToFindGit (colorVars : string)
| GraphShell (colorVars nonce : string) (globalState : JsValue)
    (initialState : GitGraphViewInitialState) (scriptUri : string)
| NoRepositories (colorVars nonce : string).

Record Html : Type := {
  html_cspSource : string;
  html_nonce : string;
  html_styleUri : string;
  html_colorParams : string;
  html_body : Body
}.

(** The initial state a document carries to the front end, if any. *)
Definition embedded_initialState (h : Html) : option GitGraphViewInitialState :=
  match html_body h with
  | GraphShell _ _ _ initialState _ => Some initialState
  | _ => None
  end.

(** ** Histories *)

Inductive Event : Type :=
| repoFileWatcher_mute
| repoFileWatcher_unmute
| repoFileWatcher_start (repo : string)
| repoFileWatcher_stop
| Attempted (op : Operation)
| Asked (q : Query)
| postMessage (msg : ResponseMessage)
| set_webview_html (html : Html).

(** One step of a history: what happened, and the controller's fields
    at that moment. *)
Record Step : Type := {
  at_view : View;
  event : Event
}.

Definition events (h : list Step) : list Event := map event h.

(** The responses posted, the sub-operations attempted and the
    documents rendered during a history, in order. *)
Definition responses (h : list Step) : list ResponseMessage :=
  omap (fun s => match event s with postMessage r => Some r | _ => None end) h.

Definition attempts (h : list Step) : list Operation :=
  omap (fun s => match event s with Attempted op => Some op | _ => None end) h.

Definition renders (h : list Step) : list Html :=
  omap (fun s => match event s with set_webview_html d => Some d | _ => None end) h.

Definition is_muting (e : Event) : bool :=
  match e with
  | repoFileWatcher_mute | repoFileWatcher_unmute => true
  | _ => false
  end.

(** The [mute()] and [unmute()] calls of a history, in order. *)
Definition mutings (h : list Step) : list Event := List.filter is_muting (events h).

Definition is_post (s : Step) : bool :=
  match event s with
  | postMessage _ => true
  | _ => false
  end.

(** The steps of a history that post a response, each with the
    controller's fields at that moment. *)
Definition posts (h : list Step) : list Step := List.filter is_post h.

(** The history of a handler that attempts [ops] one after the other
    with the fields [v]. *)
Definition attempted_steps (v : View) (ops : list Operation) : list Step :=
  map (fun op => {| at_view := v; event := Attempted op |}) ops.

(** ** Handlers *)

Inductive Outcome (A : Type) : Type :=
| Completed (a : A)
| Aborted.

Arguments Completed {A} a.
Arguments Aborted {A}.

Record Run (W A : Type) : Type := {
  outcome : Outcome A;
  fields : View;
  world : W;
  history : list Step
}.

Arguments outcome {W A} r.
Arguments fields {W A} r.
Arguments world {W A} r.
Arguments history {W A} r.

Section Controller.

Context (env : Environment).

Definition Handler (A : Type) : Type := View -> World env -> Run (World env) A.

#[export] Instance handler_ret : MRet Handler := fun A a v w =>
  {| outcome := Completed a; fields := v; world := w; history := [] |}.

#[export] Instance handler_bind : MBind Handler := fun A B f m v w =>
  let '{| outcome := o; fields := v1; world := w1; history := h1 |} := m v w in
  match o with
  | Completed a =>
      let '{| outcome := o'; fields := v2; world := w2; history := h2 |} := f a v1 w1 in
      {| outcome := o'; fields := v2; world := w2; history := h1 ++ h2 |}
  | Aborted =>
      {| outcome := Aborted; fields := v1; world := w1; history := h1 |}
  end.

(** Read [this]. *)
Definition this : Handler View := fun v w =>
  {| outcome := Completed v; fields := v; world := w; history := [] |}.

(** Assign to a field of [this]. *)
Definition assign (f : View -> View) : Handler unit := fun v w =>
  {| outcome := Completed tt; fields := f v; world := w; history := [] |}.

Definition emit (e : Event) : Handler unit := fun v w =>
  {| outcome := Completed tt; fields := v; world := w;
     history := [ {| at_view := v; event := e |} ] |}.

(** Invoke a collaborator; the result is the promise's fate. *)
Definition start_operation (op : Operation) : Handler (Settled ErrorInfo) := fun v w =>
  let '(s, w') := perform env op w in
  {| outcome := Completed s; fields := v; world := w';
     history := [ {| at_view := v; event := Attempted op |} ] |}.

Definition start_query (q : Query) : Handler (Settled (answer q)) := fun v w =>
  let '(s, w') := ask env q w in
  {| outcome := Completed s; fields := v; world := w';
     history := [ {| at_view := v; event := Asked q |} ] |}.

(** [await p]: the value of a resolved promise; a rejected one throws
    and, no handler of the controller catching anything, abandons the
    handler that awaits it.  The fields pass through unchanged: a run is
    that of one handler on its own.  In the host, other callbacks of
    the view may run while a handler awaits and assign fields of
    their own; what a run guarantees whatever runs in between is
    what holds at its steps up to the first await. *)
Definition await {A : Type} (s : Settled A) : Handler A := fun v w =>
  match s with
  | Resolved a => {| outcome := Completed a; fields := v; world := w; history := [] |}
  | Rejected => {| outcome := Aborted; fields := v; world := w; history := [] |}
  end.

(** [await op(...)], and a plain call whose value is used at once. *)
Definition attempt (op : Operation) : Handler ErrorInfo :=
  s ← start_operation op; await s.

Definition query (q : Query) : Handler (answer q) :=
  s ← start_query q; await s.

(** ** Sending and rendering *)

Definition is_null {A : Type} (x : option A) : bool :=
  match x with
  | None => true
  | Some _ => false
  end.

(** [sendMessage(msg)]: [this.panel.webview.postMessage(msg)]. *)
Definition sendMessage (msg : ResponseMessage) : Handler unit :=
  emit (postMessage msg).

(** [respondLoadRepos(repos, loadViewTo)]. *)
Definition respondLoadRepos (repos : GitRepoSet) (loadViewTo : LoadGitGraphViewTo)
  : Handler unit :=
  lastActiveRepo ← query extensionState_getLastActiveRepo;
  sendMessage {| command := "loadRepos";
                 body := LoadReposBody repos lastActiveRepo loadViewTo |}.


(** [getMediaUri(file)]: the [vscode-resource] URI of a file of the
    extension's [media] directory. *)
Definition getMediaUri (file : string) : Handler string :=
  v ← this;
  query (vscode_Uri_file [extensionPath v; "media"; file] (Some "vscode-resource")).

Definition dquote : string := String (Ascii.ascii_of_nat 34) "".

(** The loop over [graphColours] of [getHtmlForWebview], from index [i]:
    it extends [colorVars] and [colorParams]. *)
Fixpoint colour_loop (i : nat) (colours : list string) (acc : string * string)
  : string * string :=
  match colours with
  | [] => acc
  | c :: rest =>
      colour_loop (S i) rest
        (fst acc ++ "--git-graph-color" ++ pretty i ++ ":" ++ c ++ "; ",
         snd acc ++ "[data-color=" ++ dquote ++ pretty i ++ dquote
           ++ "]{--git-graph-color:var(--git-graph-color" ++ pretty i ++ ");} ")
  end.

(** [getHtmlForWebview()]. *)
Definition getHtmlForWebview : Handler Html :=
  config ← query config_getConfig;
  nonce ← query utils_getNonce;
  let refLabelAlignment := refLabelAlignment config in
  fetchAvatars ← (if config_fetchAvatars config
                  then query extensionState_isAvatarStorageAvailable
                  else mret false);
  lastActiveRepo ← query extensionState_getLastActiveRepo;
  v ← this;
  repos ← query repoManager_getRepos;
  let initialState :=
    {| initial_config :=
         {| branchLabelsAlignedToGraph :=
              match refLabelAlignment with
              | BranchesAlignedToGraphAndTagsOnRight => true
              | _ => false
              end;
            fetchAvatars := fetchAvatars;
            graphColours := config_graphColours config;
            tagLabelsOnRight :=
              match refLabelAlignment with
              | AlignmentNormal => false
              | _ => true
              end;
            settings := config_settings config |};
       initial_lastActiveRepo := lastActiveRepo;
       initial_loadViewTo := loadViewTo v;
       initial_repos := repos;
       initial_loadRepoInfoRefreshId := loadRepoInfoRefreshId v;
       initial_loadCommitsRefreshId := loadCommitsRefreshId v |} in
  globalState ← query extensionState_getGlobalViewState;
  let numRepos := size (initial_repos initialState) in
  let '(colorVars, colorParams) :=
    colour_loop 0 (graphColours (initial_config initialState)) ("", "") in
  gitUnknown ← query dataSource_isGitExecutableUnknown;
  body ← (if (gitUnknown : bool) then mret (UnableToFindGit colorVars)
          else if (0 <? numRepos)%nat then
            scriptUri ← getMediaUri "out.min.js";
            mret (GraphShell colorVars nonce globalState initialState scriptUri)
          else mret (NoRepositories colorVars nonce));
  assign (set_isGraphViewLoaded (0 <? numRepos)%nat);;
  assign (set_loadViewTo None);;
  cspSource ← query webview_cspSource;
  styleUri ← getMediaUri "out.min.css";
  mret {| html_cspSource := cspSource; html_nonce := nonce; html_styleUri := styleUri;
          html_colorParams := colorParams; html_body := body |}.

(** [update()]: [this.panel.webview.html = this.getHtmlForWebview()]. *)
Definition update : Handler unit :=
  html ← getHtmlForWebview;
  emit (set_webview_html html).

(** ** The callbacks registered by the constructor *)

(** The [onDidChangeViewState] callback. *)
Definition onDidChangeViewState : Handler unit :=
  v ← this;
  if negb (eqb (panel_visible v) (isPanelVisible v)) then
    (if panel_visible v then update
     else assign (set_currentRepo None);; emit repoFileWatcher_stop);;
    v' ← this;
    assign (set_isPanelVisible (panel_visible v'))
  else mret tt.


(** The event of [repoManager.onDidChangeRepos]. *)
Record ChangeReposEvent : Type := {
  event_repos : GitRepoSet;
  event_numRepos : Z;
  event_loadRepo : option string
}.

(** The [onDidChangeRepos] callback. *)
Definition onDidChangeRepos (ev : ChangeReposEvent) : Handler unit :=
  v ← this;
  if negb (panel_visible v) then mret tt
  else
    let loadViewTo :=
      match event_loadRepo ev with
      | Some r => Some {| target_repo := r; target_commitDetails := None |}
      | None => None
      end in
    if (event_numRepos ev =? 0) && isGraphViewLoaded v
       || (0 <? event_numRepos ev) && negb (isGraphViewLoaded v)
    then assign (set_loadViewTo loadViewTo);; update
    else respondLoadRepos (event_repos ev) loadViewTo.

(** ** The dispatcher *)

(** The loop of the [deleteBranch] case: one remote deletion per entry
    of [deleteOnRemotes], each result pushed onto [errorInfos]. *)
Fixpoint deleteOnRemotes_loop (repo branchName : string) (deleteOnRemotes : list string)
    (errorInfos : list ErrorInfo) : Handler (list ErrorInfo) :=
  match deleteOnRemotes with
  | [] => mret errorInfos
  | remote :: rest =>
      e ← attempt (dataSource_deleteRemoteBranch repo branchName remote);
      deleteOnRemotes_loop repo branchName rest (errorInfos ++ [e])%list
  end.

(** The [switch (msg.command)] of [respondToMessage], one case per
    command. *)
Definition handle (msg : RequestMessage) : Handler unit :=
  match msg with
  | RequestAddRemote repo name url pushUrl fetch =>
      error ← attempt (dataSource_addRemote repo name url pushUrl fetch);
      sendMessage {| command := "addRemote"; body := WithError error |}
  | RequestAddTag repo tagName commitHash lightweight message pushToRemote =>
      e0 ← attempt (dataSource_addTag repo tagName commitHash lightweight message);
      let errorInfos := [e0] in
      errorInfos ← (if is_null e0 then
                      match pushToRemote with
                      | Some remote =>
                          e1 ← attempt (dataSource_pushTag repo tagName remote);
                          mret (errorInfos ++ [e1])%list
                      | None => mret errorInfos
                      end
                    else mret errorInfos);
      sendMessage {| command := "addTag"; body := WithErrors errorInfos |}
  | RequestApplyStash repo selector reinstateIndex =>
      error ← attempt (dataSource_applyStash repo selector reinstateIndex);
      sendMessage {| command := "applyStash"; body := WithError error |}
  | RequestBranchFromStash repo selector branchName =>
      error ← attempt (dataSource_branchFromStash repo selector branchName);
      sendMessage {| command := "branchFromStash"; body := WithError error |}
  | RequestCheckoutBranch repo branchName remoteBranch =>
      error ← attempt (dataSource_checkoutBranch repo branchName remoteBranch);
      sendMessage {| command := "checkoutBranch"; body := WithError error |}
  | RequestCheckoutCommit repo commitHash =>
      error ← attempt (dataSource_checkoutCommit repo commitHash);
      sendMessage {| command := "checkoutCommit"; body := WithError error |}
  | RequestCherrypickCommit repo commitHash parentIndex recordOrigin noCommit =>
      e0 ← attempt (dataSource_cherrypickCommit repo commitHash parentIndex
                      recordOrigin noCommit);
      let errorInfos := [e0] in
      errorInfos ← (if is_null e0 && noCommit then
                      e1 ← attempt utils_viewScm;
                      mret (errorInfos ++ [e1])%list
                    else mret errorInfos);
      sendMessage {| command := "cherrypickCommit"; body := WithErrors errorInfos |}
  | RequestCleanUntrackedFiles repo directories =>
      error ← attempt (dataSource_cleanUntrackedFiles repo directories);
      sendMessage {| command := "cleanUntrackedFiles"; body := WithError error |}
  | RequestCodeReviewFileReviewed repo id filePath =>
      query (extensionState_updateCodeReviewFileReviewed repo id filePath)
  | RequestCommitDetails repo commitHash hasParents stash avatarEmail refresh =>
      (* Promise.all: both calls are made, then both are awaited *)
      p0 ← (if String.eqb commitHash (UNCOMMITTED env)
            then start_query (dataSource_getUncommittedDetails repo)
            else match stash with
                 | None => start_query (dataSource_getCommitDetails repo commitHash hasParents)
                 | Some st => start_query (dataSource_getStashDetails repo commitHash st)
                 end : Handler (Settled JsValue));
      p1 ← (match avatarEmail with
            | Some email => start_query (avatarManager_getAvatarImage email)
            | None => mret (Resolved None)
            end : Handler (Settled (option string)));
      data0 ← await p0;
      data1 ← await p1;
      codeReview ← (if negb (String.eqb commitHash (UNCOMMITTED env))
                    then query (extensionState_getCodeReview repo commitHash)
                    else mret None : Handler (option JsValue));
      sendMessage {| command := "commitDetails";
                     body := CommitDetailsBody data0 data1 codeReview refresh |}
  | RequestCompareCommits repo commitHash compareWithHash fromHash toHash refresh =>
      data ← query (dataSource_getCommitComparison repo fromHash toHash);
      codeReview ← (if negb (String.eqb toHash (UNCOMMITTED env))
                    then query (extensionState_getCodeReview repo (fromHash ++ "-" ++ toHash))
                    else mret None : Handler (option JsValue));
      sendMessage {| command := "compareCommits";
                     body := CompareCommitsBody commitHash compareWithHash data
                               codeReview refresh |}
  | RequestCopyFilePath repo filePath =>
      error ← attempt (utils_copyFilePathToClipboard repo filePath);
      sendMessage {| command := "copyFilePath"; body := WithError error |}
  | RequestCopyToClipboard type data =>
      error ← attempt (utils_copyToClipboard data);
      sendMessage {| command := "copyToClipboard"; body := CopyToClipboardBody type error |}
  | RequestCreateArchive repo ref =>
      error ← attempt (utils_archive repo ref);
      sendMessage {| command := "createArchive"; body := WithError error |}
  | RequestCreateBranch repo branchName commitHash checkout =>
      error ← attempt (dataSource_createBranch repo branchName commitHash checkout);
      sendMessage {| command := "createBranch"; body := WithError error |}
  | RequestCreatePullRequest repo config sourceRemote sourceOwner sourceRepo sourceBranch push =>
      e0 ← (if push
            then attempt (dataSource_pushBranch repo sourceBranch sourceRemote true Normal)
            else mret None);
      let errorInfos := [e0] in
      errorInfos ← (if is_null e0 then
                      e1 ← attempt (utils_createPullRequest config sourceOwner sourceRepo
                                      sourceBranch);
                      mret (errorInfos ++ [e1])%list
                    else mret errorInfos);
      sendMessage {| command := "createPullRequest";
                     body := CreatePullRequestBody push errorInfos |}
  | RequestDeleteBranch repo branchName forceDelete deleteOnRemotes =>
      e0 ← attempt (dataSource_deleteBranch repo branchName forceDelete);
      errorInfos ← deleteOnRemotes_loop repo branchName deleteOnRemotes [e0];
      sendMessage {| command := "deleteBranch"; body := WithErrors errorInfos |}
  | RequestDeleteRemote repo name =>
      error ← attempt (dataSource_deleteRemote repo name);
      sendMessage {| command := "deleteRemote"; body := WithError error |}
  | RequestDeleteRemoteBranch repo branchName remote =>
      error ← attempt (dataSource_deleteRemoteBranch repo branchName remote);
      sendMessage {| command := "deleteRemoteBranch"; body := WithError error |}
  | RequestDeleteTag repo tagName deleteOnRemote =>
      error ← attempt (dataSource_deleteTag repo tagName deleteOnRemote);
      sendMessage {| command := "deleteTag"; body := WithError error |}
  | RequestDeleteUserDetails repo name email location =>
      let errorInfos := [] in
      errorInfos ← (if name then
                      e ← attempt (dataSource_unsetConfigValue repo
                                     (GIT_CONFIG_USER_NAME env) location);
                      mret (errorInfos ++ [e])%list
                    else mret errorInfos);
      errorInfos ← (if email then
                      e ← attempt (dataSource_unsetConfigValue repo
                                     (GIT_CONFIG_USER_EMAIL env) location);
                      mret (errorInfos ++ [e])%list
                    else mret errorInfos);
      sendMessage {| command := "deleteUserDetails"; body := WithErrors errorInfos |}
  | RequestDropCommit repo commitHash =>
      error ← attempt (dataSource_dropCommit repo commitHash);
      sendMessage {| command := "dropCommit"; body := WithError error |}
  | RequestDropStash repo selector =>
      error ← attempt (dataSource_dropStash repo selector);
      sendMessage {| command := "dropStash"; body := WithError error |}
  | RequestEditRemote repo nameOld nameNew urlOld urlNew pushUrlOld pushUrlNew =>
      error ← attempt (dataSource_editRemote repo nameOld nameNew urlOld urlNew
                         pushUrlOld pushUrlNew);
      sendMessage {| command := "editRemote"; body := WithError error |}
  | RequestEditUserDetails repo name email location deleteLocalName deleteLocalEmail =>
      e0 ← attempt (dataSource_setConfigValue repo (GIT_CONFIG_USER_NAME env) name location);
      e1 ← attempt (dataSource_setConfigValue repo (GIT_CONFIG_USER_EMAIL env) email location);
      let errorInfos := [e0; e1] in
      errorInfos ← (if is_null e0 && is_null e1 then
                      errorInfos ← (if deleteLocalName then
                                      e ← attempt (dataSource_unsetConfigValue repo
                                                     (GIT_CONFIG_USER_NAME env) Local);
                                      mret (errorInfos ++ [e])%list
                                    else mret errorInfos);
                      if deleteLocalEmail then
                        e ← attempt (dataSource_unsetConfigValue repo
                                       (GIT_CONFIG_USER_EMAIL env) Local);
                        mret (errorInfos ++ [e])%list
                      else mret errorInfos
                    else mret errorInfos);
      sendMessage {| command := "editUserDetails"; body := WithErrors errorInfos |}
  | RequestFetch repo name prune =>
      error ← attempt (dataSource_fetch repo name prune);
      sendMessage {| command := "fetch"; body := WithError error |}
  | RequestFetchAvatar email repo remote commits =>
      query (avatarManager_fetchAvatarImage email repo remote commits)
  | RequestFetchIntoLocalBranch repo remote remoteBranch localBranch =>
      error ← attempt (dataSource_fetchIntoLocalBranch repo remote remoteBranch localBranch);
      sendMessage {| command := "fetchIntoLocalBranch"; body := WithError error |}
  | RequestEndCodeReview repo id =>
      query (extensionState_endCodeReview repo id)
  | RequestGetSettings repo =>
      data ← query (dataSource_getRepoSettings repo);
      sendMessage {| command := "getSettings"; body := GetSettingsBody data |}
  | RequestLoadCommits refreshId repo branches maxCommits showTags showRemoteBranches
      includeCommitsMentionedByReflogs onlyFollowFirstParent remotes hideRemotes stashes =>
      assign (set_loadCommitsRefreshId refreshId);;
      data ← query (dataSource_getCommits repo branches maxCommits showTags
                      showRemoteBranches includeCommitsMentionedByReflogs
                      onlyFollowFirstParent remotes hideRemotes stashes);
      sendMessage {| command := "loadCommits";
                     body := LoadCommitsBody refreshId onlyFollowFirstParent data |}
  | RequestLoadRepoInfo refreshId repo showRemoteBranches hideRemotes =>
      assign (set_loadRepoInfoRefreshId refreshId);;
      repoInfo ← query (dataSource_getRepoInfo repo showRemoteBranches hideRemotes);
      let isRepo := true in
      '(repoInfo, isRepo) ←
        (if truthy (repoInfo_error repoInfo) then
           root ← query (dataSource_repoRoot repo);
           let isRepo := negb (is_null (root : option string)) in
           mret (if negb isRepo then clear_error repoInfo else repoInfo, isRepo)
         else mret (repoInfo, isRepo) : Handler (GitRepoInfo * bool));
      sendMessage {| command := "loadRepoInfo";
                     body := LoadRepoInfoBody refreshId repoInfo isRepo |};;
      v ← this;
      if negb (bool_decide (Some repo = currentRepo v)) then
        assign (set_currentRepo (Some repo));;
        query (extensionState_setLastActiveRepo repo);;
        emit (repoFileWatcher_start repo)
      else mret tt
  | RequestLoadRepos check =>
      proceed ← (if negb check then mret true
                 else changed ← query repoManager_checkReposExist;
                      mret (negb changed));
      if (proceed : bool) then
        repos ← query repoManager_getRepos;
        respondLoadRepos repos None
      else mret tt
  | RequestMerge repo obj actionOn createNewCommit squash noCommit =>
      error ← attempt (dataSource_merge repo obj actionOn createNewCommit squash noCommit);
      sendMessage {| command := "merge"; body := MergeBody actionOn error |}
  | RequestOpenExtensionSettings =>
      error ← attempt utils_openExtensionSettings;
      sendMessage {| command := "openExtensionSettings"; body := WithError error |}
  | RequestOpenFile repo filePath =>
      error ← attempt (utils_openFile repo filePath);
      sendMessage {| command := "openFile"; body := WithError error |}
  | RequestPopStash repo selector reinstateIndex =>
      error ← attempt (dataSource_popStash repo selector reinstateIndex);
      sendMessage {| command := "popStash"; body := WithError error |}
  | RequestPruneRemote repo name =>
      error ← attempt (dataSource_pruneRemote repo name);
      sendMessage {| command := "pruneRemote"; body := WithError error |}
  | RequestPullBranch repo branchName remote createNewCommit squash =>
      error ← attempt (dataSource_pullBranch repo branchName remote createNewCommit squash);
      sendMessage {| command := "pullBranch"; body := WithError error |}
  | RequestPushBranch repo branchName remote setUpstream mode =>
      error ← attempt (dataSource_pushBranch repo branchName remote setUpstream mode);
      sendMessage {| command := "pushBranch"; body := WithError error |}
  | RequestPushStash repo message includeUntracked =>
      error ← attempt (dataSource_pushStash repo message includeUntracked);
      sendMessage {| command := "pushStash"; body := WithError error |}
  | RequestPushTag repo tagName remote =>
      error ← attempt (dataSource_pushTag repo tagName remote);
      sendMessage {| command := "pushTag"; body := WithError error |}
  | RequestRebase repo obj actionOn ignoreDate interactive =>
      error ← attempt (dataSource_rebase repo obj actionOn ignoreDate interactive);
      sendMessage {| command := "rebase"; body := RebaseBody actionOn interactive error |}
  | RequestRenameBranch repo oldName newName =>
      error ← attempt (dataSource_renameBranch repo oldName newName);
      sendMessage {| command := "renameBranch"; body := WithError error |}
  | RequestRescanForRepos =>
      found ← query repoManager_searchWorkspaceForRepos;
      if negb (found : bool) then
        query (utils_showErrorMessage
                 "No Git repositories were found in the current workspace.")
      else mret tt
  | RequestResetToCommit repo commit resetMode =>
      error ← attempt (dataSource_resetToCommit repo commit resetMode);
      sendMessage {| command := "resetToCommit"; body := WithError error |}
  | RequestRevertCommit repo commitHash parentIndex =>
      error ← attempt (dataSource_revertCommit repo commitHash parentIndex);
      sendMessage {| command := "revertCommit"; body := WithError error |}
  | RequestSetGlobalViewState state =>
      error ← attempt (extensionState_setGlobalViewState state);
      sendMessage {| command := "setGlobalViewState"; body := WithError error |}
  | RequestSetRepoState repo state =>
      query (repoManager_setRepoState repo state)
  | RequestShowErrorMessage message =>
      query (utils_showErrorMessage message)
  | RequestStartCodeReview repo id files lastViewedFile commitHash compareWithHash =>
      data ← query (extensionState_startCodeReview repo id files lastViewedFile);
      sendMessage {| command := "startCodeReview";
                     body := StartCodeReviewBody commitHash compareWithHash data |}
  | RequestTagDetails repo tagName commitHash =>
      data ← query (dataSource_getTagDetails repo tagName);
      sendMessage {| command := "tagDetails";
                     body := TagDetailsBody tagName commitHash data |}
  | RequestViewDiff repo fromHash toHash oldFilePath newFilePath type =>
      error ← attempt (utils_viewDiff repo fromHash toHash oldFilePath newFilePath type);
      sendMessage {| command := "viewDiff"; body := WithError error |}
  | RequestViewFileAtRevision repo hash filePath =>
      error ← attempt (utils_viewFileAtRevision repo hash filePath);
      sendMessage {| command := "viewFileAtRevision"; body := WithError error |}
  | RequestViewScm =>
      error ← attempt utils_viewScm;
      sendMessage {| command := "viewScm"; body := WithError error |}
  end.

(** [respondToMessage(msg)]: mute the file watcher, run the case of
    the command, unmute. *)
Definition respondToMessage (msg : RequestMessage) : Handler unit :=
  emit repoFileWatcher_mute;;
  handle msg;;
  emit repoFileWatcher_unmute.

(** ** Observations on a run *)

(** The requests after which [respondToMessage] has posted nothing:
    six commands always, and [loadRepos] when it was asked to check
    and the check reported changes. *)
Definition posts_nothing (msg : RequestMessage) (w : World env) : bool :=
  match msg with
  | RequestCodeReviewFileReviewed _ _ _
  | RequestEndCodeReview _ _
  | RequestFetchAvatar _ _ _ _
  | RequestRescanForRepos
  | RequestSetRepoState _ _
  | RequestShowErrorMessage _ => true
  | RequestLoadRepos check =>
      check && match fst (ask env repoManager_checkReposExist w) with
               | Resolved changed => changed
               | Rejected => true
               end
  | _ => false
  end.

(** The run-all policy, following the specification's words (4.2):
    execute every sub-operation regardless of prior outcomes,
    collecting one [ErrorInfo] per attempt.  The result also lists the
    sub-operations attempted; a sub-operation that throws ends the
    sequence. *)
Fixpoint run_all_policy (ops : list Operation) (w : World env)
  : Outcome (list ErrorInfo) * list Operation * World env :=
  match ops with
  | [] => (Completed [], [], w)
  | op :: rest =>
      match perform env op w with
      | (Resolved e, w1) =>
          let '(o, attempted, w2) := run_all_policy rest w1 in
          (match o with
           | Completed errs => Completed (e :: errs)
           | Aborted => Aborted
           end, op :: attempted, w2)
      | (Rejected, w1) => (Aborted, [op], w1)
      end
  end.

(** The controller's fields and the world after a series of requests
    has been dispatched, one after the other. *)
Fixpoint after_requests (msgs : list RequestMessage) (v : View) (w : World env)
  : View * World env :=
  match msgs with
  | [] => (v, w)
  | msg :: rest =>
      let r := respondToMessage msg v w in
      after_requests rest (fields r) (world r)
  end.

End Controller.

(** ** Example environments *)

(** An answer of the right type for every query: nothing known, no
    repositories, Git available. *)
Definition default_answer (q : Query) : answer q :=
  match q with
  | avatarManager_getAvatarImage _ => None
  | dataSource_getCommitComparison _ _ _ => JsNull
  | dataSource_getCommitDetails _ _ _ => JsNull
  | dataSource_getCommits _ _ _ _ _ _ _ _ _ _ => JsNull
  | dataSource_getRepoInfo _ _ _ => {| repoInfo_data := JsNull; repoInfo_error := None |}
  | dataSource_getRepoSettings _ => JsNull
  | dataSource_getStashDetails _ _ _ => JsNull
  | dataSource_getTagDetails _ _ => JsNull
  | dataSource_getUncommittedDetails _ => JsNull
  | dataSource_isGitExecutableUnknown => false
  | dataSource_repoRoot repo => Some repo
  | extensionState_getCodeReview _ _ => None
  | extensionState_getGlobalViewState => JsNull
  | extensionState_getLastActiveRepo => None
  | extensionState_isAvatarStorageAvailable => true
  | extensionState_startCodeReview _ _ _ _ => JsNull
  | repoManager_checkReposExist => false
  | repoManager_getRepos => ∅
  | repoManager_searchWorkspaceForRepos => true
  | utils_getNonce => "nonce"
  | config_getConfig =>
      {| refLabelAlignment := AlignmentNormal; config_fetchAvatars := false;
         config_graphColours := ["#0085d9"; "#d9008f"]; config_settings := JsNull |}
  | webview_cspSource => "vscode-webview:"
  | vscode_Uri_file _ _ => "vscode-resource:/ext/media"
  | avatarManager_fetchAvatarImage _ _ _ _
  | extensionState_endCodeReview _ _
  | extensionState_setLastActiveRepo _
  | extensionState_updateCodeReviewFileReviewed _ _ _
  | repoManager_setRepoState _ _
  | utils_showErrorMessage _ => tt
  end.

(** An environment without state of its own: each call is answered
    from its arguments alone. *)
Definition stateless (perf : Operation -> Settled ErrorInfo)
    (ans : forall q : Query, Settled (answer q)) : Environment :=
  {| World := unit;
     perform := fun op w => (perf op, w);
     ask := fun q w => (ans q, w);
     UNCOMMITTED := "*";
     GIT_CONFIG_USER_NAME := "user.name";
     GIT_CONFIG_USER_EMAIL := "user.email" |}.

(** Every operation succeeds, every query gets its default answer. *)
Definition quiet_env : Environment :=
  stateless (fun _ => Resolved None) (fun q => Resolved (default_answer q)).

(** The fields of a freshly constructed view. *)
Definition fresh_view : View :=
  {| extensionPath := "/ext"; isGraphViewLoaded := false; isPanelVisible := true;
     currentRepo := None; loadViewTo := None; loadRepoInfoRefreshId := 0;
     loadCommitsRefreshId := 0; panel_visible := true |}.

(** Operations fail (with the message ["failed"]) where [bad] says so
    and succeed elsewhere; queries get their default answers. *)
Definition failing (bad : Operation -> bool) : Environment :=
  stateless (fun op => if bad op then Resolved (Some "failed") else Resolved None)
            (fun q => Resolved (default_answer q)).

(** Every awaited operation rejects. *)
Definition rejecting_env : Environment :=
  stateless (fun _ => Rejected) (fun q => Resolved (default_answer q)).

Definition sets_user_name (op : Operation) : bool :=
  match op with
  | dataSource_setConfigValue _ key _ _ => String.eqb key "user.name"
  | _ => false
  end.

Definition first_step (op : Operation) : bool :=
  match op with
  | dataSource_addTag _ _ _ _ _
  | dataSource_cherrypickCommit _ _ _ _ _
  | dataSource_pushBranch _ _ _ _ _ => true
  | _ => false
  end.

(** The local delete fails, and so does the deletion on [upstream]. *)
Definition local_and_upstream (op : Operation) : bool :=
  match op with
  | dataSource_deleteBranch _ _ _ => true
  | dataSource_deleteRemoteBranch _ _ remote => String.eqb remote "upstream"
  | _ => false
  end.

(** The repository-info query reports [error]; the repository root is
    [root] ([None]: the repository is gone). *)
Definition repoInfo_env (error : ErrorInfo) (root : option string) : Environment :=
  stateless (fun _ => Resolved None)
    (fun q =>
       match q as q0 return Settled (answer q0) with
       | dataSource_getRepoInfo _ _ _ =>
           Resolved {| repoInfo_data := JsNull; repoInfo_error := error |}
       | dataSource_repoRoot _ => Resolved root
       | q0 => Resolved (default_answer q0)
       end).

(** One known repository; the Git executable is unknown or not. *)
Definition one_repo_env (gitUnknown : bool) : Environment :=
  stateless (fun _ => Resolved None)
    (fun q =>
       match q as q0 return Settled (answer q0) with
       | repoManager_getRepos => Resolved {[ "/repo" := JsNull ]}
       | dataSource_isGitExecutableUnknown => Resolved gitUnknown
       | q0 => Resolved (default_answer q0)
       end).

(** One known repository, under a configuration that aligns the branch
    labels to the graph and asks for avatars; avatar storage is
    available. *)
Definition aligned_avatars_env : Environment :=
  stateless (fun _ => Resolved None)
    (fun q =>
       match q as q0 return Settled (answer q0) with
       | repoManager_getRepos => Resolved {[ "/repo" := JsNull ]}
       | config_getConfig =>
           Resolved {| refLabelAlignment := BranchesAlignedToGraphAndTagsOnRight;
                       config_fetchAvatars := true;
                       config_graphColours := ["#0085d9"; "#d9008f"];
                       config_settings := JsNull |}
       | q0 => Resolved (default_answer q0)
       end).

(** ** Further observations on a history *)

Definition is_watcher_switch (e : Event) : bool :=
  match e with
  | repoFileWatcher_start _ | repoFileWatcher_stop => true
  | _ => false
  end.

(** The [start()] and [stop()] calls on the file watcher, in order. *)
Definition watcher_switches (h : list Step) : list Event :=
  List.filter is_watcher_switch (events h).

(** The queries asked during a history, in order. *)
Definition asked (h : list Step) : list Query :=
  omap (fun s => match event s with Asked q => Some q | _ => None end) h.

(** The [error] field of the responses that report the result of one
    operation. *)
Definition plain_error (b : ResponseBody) : option ErrorInfo :=
  match b with
  | WithError e | CopyToClipboardBody _ e | MergeBody _ e | RebaseBody _ _ e => Some e
  | _ => None
  end.

(** The text that one colour adds to [colorVars] and to [colorParams]. *)
Definition colour_var (i : nat) (c : string) : string :=
  "--git-graph-color" ++ pretty i ++ ":" ++ c ++ "; ".

Definition colour_param (i : nat) : string :=
  "[data-color=" ++ dquote ++ pretty i ++ dquote
    ++ "]{--git-graph-color:var(--git-graph-color" ++ pretty i ++ ");} ".

(** The body a render produces, as decided by the data source's answer
    about the Git executable and by the repositories known. *)
Definition body_chosen (gitUnknown : bool) (repos : GitRepoSet) (v : View) (b : Body)
  : Prop :=
  if gitUnknown then exists colorVars, b = UnableToFindGit colorVars
  else if (0 <? size repos)%nat then
    exists colorVars nonce globalState st scriptUri,
      b = GraphShell colorVars nonce globalState st scriptUri /\
      initial_loadViewTo st = loadViewTo v /\
      initial_repos st = repos /\
      initial_loadRepoInfoRefreshId st = loadRepoInfoRefreshId v /\
      initial_loadCommitsRefreshId st = loadCommitsRefreshId v
  else exists colorVars nonce, b = NoRepositories colorVars nonce.

(** The concatenation of a list of strings. *)
Definition joined (l : list string) : string := fold_right String.append "" l.

(** The navigation target that [onDidChangeRepos] builds from its event. *)
Definition event_target (ev : ChangeReposEvent) : LoadGitGraphViewTo :=
  match event_loadRepo ev with
  | Some repo => Some {| target_repo := repo; target_commitDetails := None |}
  | None => None
  end.


(** ** The panel's life cycle *)

(** What [createOrShow], the constructor and [dispose] do besides the
    steps of the view itself: calls on the host, the avatar manager and
    the logger.  The options of the new panel and its icon are computed
    from the extension path and from [getConfig()]; the five
    registrations are the callbacks the constructor installs. *)
Inductive SessionEvent : Type :=
| in_view (s : Step)
| avatarManager_registerView
| avatarManager_deregisterView
| window_createWebviewPanel (column : Z) (localResourceRoot : list string) (config : Config)
| panel_set_iconPath (config : Config)
| panel_onDidDispose
| panel_onDidChangeViewState
| new_RepoFileWatcher
| repoManager_onDidChangeRepos
| webview_onDidReceiveMessage
| panel_reveal (column : option Z)
| panel_dispose
| disposables_dispose
| logger_log (message : string).

(** [vscode.ViewColumn.One]. *)
Definition ViewColumn_One : Z := 1.

(** [column || vscode.ViewColumn.One]: [undefined] and [0] are falsy. *)
Definition column_or_One (column : option Z) : Z :=
  match column with
  | Some c => if c =? 0 then ViewColumn_One else c
  | None => ViewColumn_One
  end.

(** A run at the level of the class: [currentPanel] is the static
    [GitGraphView.currentPanel], given by the fields of the view it
    holds. *)
Record SessionRun (W : Type) : Type := {
  session_outcome : Outcome unit;
  currentPanel : option View;
  session_world : W;
  session_history : list SessionEvent
}.

Arguments session_outcome {W} _.
Arguments currentPanel {W} _.
Arguments session_world {W} _.
Arguments session_history {W} _.

(** The panels created, the reveals and the steps of the view during
    a class-level history. *)
Definition creations (h : list SessionEvent) : list SessionEvent :=
  List.filter (fun e => match e with window_createWebviewPanel _ _ _ => true | _ => false end) h.

Definition reveals (h : list SessionEvent) : list (option Z) :=
  flat_map (fun e => match e with panel_reveal column => [column] | _ => [] end) h.

Definition view_steps (h : list SessionEvent) : list Step :=
  flat_map (fun e => match e with in_view s => [s] | _ => [] end) h.

Section Session.

Context (env : Environment).

(** The fields of a view as the constructor initialises them;
    [visible] is the visibility the host gives the new panel. *)
Definition initial_fields (extensionPath : string) (loadViewTo : LoadGitGraphViewTo)
    (visible : bool) : View :=
  {| extensionPath := extensionPath; isGraphViewLoaded := false; isPanelVisible := true;
     currentRepo := None; loadViewTo := loadViewTo; loadRepoInfoRefreshId := 0;
     loadCommitsRefreshId := 0; panel_visible := visible |}.

(** The message the constructor logs. *)
Definition created_message (loadViewTo : LoadGitGraphViewTo) : string :=
  "Created Git Graph View" ++
  match loadViewTo with
  | Some target => " (active repo: " ++ target_repo target ++ ")"
  | None => ""
  end.

(** [new GitGraphView(..., loadViewTo, column)].  When [getConfig()] or
    the first [update()] throws, so does the constructor, and no view
    comes into being. *)
Definition constructor (extensionPath : string) (loadViewTo : LoadGitGraphViewTo)
    (column : option Z) (visible : bool) (w : World env) : SessionRun (World env) :=
  let v := initial_fields extensionPath loadViewTo visible in
  let c := query env config_getConfig v w in
  match outcome c with
  | Aborted =>
      {| session_outcome := Aborted; currentPanel := None; session_world := world c;
         session_history := avatarManager_registerView :: map in_view (history c) |}
  | Completed config =>
      let u := update env (fields c) (world c) in
      let installed :=
        (avatarManager_registerView :: map in_view (history c)) ++
        [window_createWebviewPanel (column_or_One column) [extensionPath; "media"] config;
         panel_set_iconPath config;
         panel_onDidDispose; panel_onDidChangeViewState; new_RepoFileWatcher;
         repoManager_onDidChangeRepos; webview_onDidReceiveMessage] ++
        map in_view (history u) in
      match outcome u with
      | Completed _ =>
          {| session_outcome := Completed tt; currentPanel := Some (fields u);
             session_world := world u;
             session_history := installed ++ [logger_log (created_message loadViewTo)] |}
      | Aborted =>
          {| session_outcome := Aborted; currentPanel := None; session_world := world u;
             session_history := installed |}
      end
  end%list.

(** What [createOrShow] does to an existing panel before revealing it. *)
Definition show_existing (loadViewTo : LoadGitGraphViewTo) : Handler env unit :=
  v ← this env;
  if isPanelVisible v then
    match loadViewTo with
    | Some _ =>
        repos ← query env repoManager_getRepos;
        respondLoadRepos env repos loadViewTo
    | None => mret tt
    end
  else assign env (set_loadViewTo loadViewTo).

(** [GitGraphView.createOrShow(..., loadViewTo)]; [column] is the view
    column of the active text editor, if there is one. *)
Definition createOrShow (extensionPath : string) (loadViewTo : LoadGitGraphViewTo)
    (column : option Z) (visible : bool) (panel : option View) (w : World env)
  : SessionRun (World env) :=
  match panel with
  | Some v =>
      let r := show_existing loadViewTo v w in
      match outcome r with
      | Completed _ =>
          {| session_outcome := Completed tt; currentPanel := Some (fields r);
             session_world := world r;
             session_history := (map in_view (history r) ++ [panel_reveal column])%list |}
      | Aborted =>
          {| session_outcome := Aborted; currentPanel := Some (fields r);
             session_world := world r; session_history := map in_view (history r) |}
      end
  | None => constructor extensionPath loadViewTo column visible w
  end.

(** [dispose()] of the view with the fields [v]. *)
Definition dispose (v : View) (w : World env) : SessionRun (World env) :=
  {| session_outcome := Completed tt; currentPanel := None; session_world := w;
     session_history :=
       [panel_dispose; avatarManager_deregisterView;
        in_view {| at_view := v; event := repoFileWatcher_stop |};
        disposables_dispose; logger_log "Disposed Git Graph View"] |}.

End Session.

(** ** Running handlers symbolically *)

Ltac evaluate :=
  cbv beta iota zeta delta
    [respondToMessage handle attempt query start_operation start_query await emit
     sendMessage assign this mbind mret handler_bind handler_ret respondLoadRepos
     getHtmlForWebview getMediaUri update onDidChangeViewState onDidChangeRepos
     outcome fields world history is_null negb andb orb];
  cbn [app fst extensionPath isGraphViewLoaded isPanelVisible currentRepo loadViewTo
       loadRepoInfoRefreshId loadCommitsRefreshId panel_visible
       set_isGraphViewLoaded set_isPanelVisible set_currentRepo set_loadViewTo
       set_loadRepoInfoRefreshId set_loadCommitsRefreshId set_panel_visible].

(** One call further, in an environment that never rejects. *)
Ltac step_resolved H :=
  match goal with
  | |- context [perform ?E ?op ?w] =>
      let e := fresh "e" in let w' := fresh "w" in
      destruct (proj1 H op w) as (e & w' & ->); evaluate
  | |- context [ask ?E ?q ?w] =>
      let a := fresh "a" in let w' := fresh "w" in
      destruct (proj2 H q w) as (a & w' & ->); evaluate
  end.

(** The same for a query, keeping what the environment answered. *)
Ltac step_kept H :=
  match goal with
  | |- context [ask ?E ?q ?w] =>
      let a := fresh "a" in let w' := fresh "w" in let Hask := fresh "Hask" in
      destruct (proj2 H q w) as (a & w' & Hask); rewrite Hask; evaluate
  end.

(** One call further, in any environment. *)
Ltac step_settled :=
  match goal with
  | |- context [perform ?E ?op ?w] =>
      let e := fresh "e" in let w' := fresh "w" in
      destruct (perform E op w) as [[e|] w']; evaluate
  | |- context [ask ?E ?q ?w] =>
      let a := fresh "a" in let w' := fresh "w" in
      destruct (ask E q w) as [[a|] w']; evaluate
  end.

(** One branch further: case on the variable or the test that decides
    a conditional. *)
Ltac step_branch :=
  match goal with
  | |- context [match ?x with _ => _ end] => is_var x; destruct x; evaluate
  | |- context [if ?b then _ else _] =>
      lazymatch b with
      | truthy _ => idtac
      | String.eqb _ _ => idtac
      | bool_decide _ => idtac
      end;
      destruct b eqn:?; evaluate
  end.

(** One call further in any environment, keeping what an operation settled to. *)
Ltac step_settled_kept :=
  match goal with
  | |- context [perform ?E ?op ?w] =>
      let e := fresh "e" in let w' := fresh "w" in let Hop := fresh "Hop" in
      destruct (perform E op w) as [[e|] w'] eqn:Hop; evaluate
  | |- context [ask ?E ?q ?w] =>
      let a := fresh "a" in let w' := fresh "w" in
      destruct (ask E q w) as [[a|] w']; evaluate
  end.

(** One render in any environment, followed to each of its ends. *)
Ltac follow_render :=
  evaluate; do 2 (step_settled; [|try (repeat split; reflexivity); try discriminate]);
  match goal with
  | |- context [config_fetchAvatars ?c] => destruct (config_fetchAvatars c) eqn:?; evaluate
  end;
  repeat (step_settled; [|try (repeat split; reflexivity); try discriminate]);
  try (destruct (colour_loop _ _ _) as [colorVars colorParams]; evaluate);
  repeat (step_settled; [|try (repeat split; reflexivity); try discriminate]);
  cbn [initial_repos initial_config graphColours];
  repeat first [step_branch
               | match goal with
                 | |- context [if Nat.ltb 0 ?n then _ else _] =>
                     destruct (Nat.ltb 0 n); evaluate
                 end
               | step_settled].

(** A call of the class: the panel is there or it is not. *)
Ltac evaluate_session :=
  cbv beta iota zeta delta
    [createOrShow show_existing constructor dispose initial_fields
     session_outcome currentPanel session_world session_history];
  evaluate.

(** The document of a render that completes and the initial state it
    embeds, by evaluation. *)
Ltac with_render r :=
  let o := eval vm_compute in (outcome r) in
  lazymatch o with
  | Completed ?html =>
      let s := eval vm_compute in (embedded_initialState html) in
      lazymatch s with
      | Some ?st => exists html, st
      end
  end.

(** ** The example environments never reject *)

Lemma quiet_env_never_rejects : never_rejects quiet_env.
Proof. split; intros; do 2 eexists; reflexivity. Qed.

Lemma failing_never_rejects bad : never_rejects (failing bad).
Proof.
  split; [intros op w; cbn; destruct (bad op) | intros q w]; do 2 eexists; reflexivity.
Qed.

Lemma one_repo_env_never_rejects gitUnknown : never_rejects (one_repo_env gitUnknown).
Proof. split; [intros op w | intros q w; destruct q]; do 2 eexists; reflexivity. Qed.

Lemma one_repo_size : size ({[ "/repo" := JsNull ]} : GitRepoSet) <> 0%nat.
Proof. vm_compute. discriminate. Qed.

(** ** Properties of the dispatcher *)

Section Dispatch.

Context (env : Environment).

Lemma never_rejects_run_all (H : never_rejects env) ops w :
  exists errs w', run_all_policy env ops w = (Completed errs, ops, w')
                  /\ length errs = length ops.
Proof.
  revert w. induction ops as [|op rest IH]; intros w; cbn.
  - exists [], w. split; reflexivity.
  - destruct (proj1 H op w) as (e & w1 & ->).
    destruct (IH w1) as (errs & w2 & -> & Hlen).
    exists (e :: errs), w2. cbn. rewrite Hlen. split; reflexivity.
Qed.

(** The loop of the [deleteBranch] case carries out the run-all policy
    on the remote deletions. *)
Lemma deleteOnRemotes_loop_run_all repo branchName deleteOnRemotes errorInfos v w :
  deleteOnRemotes_loop env repo branchName deleteOnRemotes errorInfos v w =
  let '(o, attempted, w') :=
    run_all_policy env (map (dataSource_deleteRemoteBranch repo branchName) deleteOnRemotes) w in
  {| outcome := match o with
                | Completed errs => Completed (errorInfos ++ errs)%list
                | Aborted => Aborted
                end;
     fields := v; world := w';
     history := attempted_steps v attempted |}.
Proof.
  revert errorInfos w.
  induction deleteOnRemotes as [|remote rest IH]; intros errorInfos w.
  - cbn. rewrite app_nil_r. reflexivity.
  - cbn [deleteOnRemotes_loop map run_all_policy]. evaluate.
    destruct (perform env _ w) as [[e|] w1]; evaluate; [|reflexivity].
    rewrite IH.
    destruct (run_all_policy env _ w1) as [[o attempted] w2].
    cbn. destruct o; [|reflexivity].
    rewrite <- app_assoc. reflexivity.
Qed.

(** *** Histories of attempted sub-operations *)

Lemma responses_app h1 h2 : responses (h1 ++ h2) = (responses h1 ++ responses h2)%list.
Proof. apply omap_app. Qed.

Lemma attempts_app h1 h2 : attempts (h1 ++ h2) = (attempts h1 ++ attempts h2)%list.
Proof. apply omap_app. Qed.

Lemma mutings_app h1 h2 : mutings (h1 ++ h2) = (mutings h1 ++ mutings h2)%list.
Proof. unfold mutings, events. rewrite map_app. apply List.filter_app. Qed.

Lemma posts_app h1 h2 : posts (h1 ++ h2) = (posts h1 ++ posts h2)%list.
Proof. apply List.filter_app. Qed.

Lemma responses_attempted v ops : responses (attempted_steps v ops) = [].
Proof. induction ops as [|op rest IH]; [reflexivity | exact IH]. Qed.

Lemma attempts_attempted v ops : attempts (attempted_steps v ops) = ops.
Proof. induction ops as [|op rest IH]; [reflexivity | cbn; f_equal; exact IH]. Qed.

Lemma mutings_attempted v ops : mutings (attempted_steps v ops) = [].
Proof. induction ops as [|op rest IH]; [reflexivity | exact IH]. Qed.

Lemma posts_attempted v ops : posts (attempted_steps v ops) = [].
Proof. induction ops as [|op rest IH]; [reflexivity | exact IH]. Qed.

(** In an environment that never rejects, [respondToMessage] completes;
    it posts nothing for the requests of [posts_nothing] and exactly one
    response, tagged with the request's command, for every other request. *)
Lemma dispatch_resolved (H : never_rejects env) msg v w :
  let r := respondToMessage env msg v w in
  outcome r = Completed tt /\
  if posts_nothing env msg w then responses (history r) = []
  else exists resp, responses (history r) = [resp] /\ command resp = request_command msg.
Proof.
  destruct msg; cbn [posts_nothing request_command]; evaluate.
  17: { (* deleteBranch *)
    step_resolved H. rewrite deleteOnRemotes_loop_run_all.
    destruct (never_rejects_run_all H
                (map (dataSource_deleteRemoteBranch repo branchName) deleteOnRemotes) w0)
      as (errs & w' & -> & _).
    evaluate.
    split; [reflexivity|]. eexists.
    change (?a :: ?b :: ?l ++ ?m) with ([a; b] ++ l ++ m)%list.
    rewrite !responses_app, responses_attempted. split; reflexivity. }
  32: { (* loadRepos *)
    destruct check; evaluate; repeat step_resolved H; [destruct a; evaluate|];
      repeat step_resolved H;
      first [split; reflexivity | split; [reflexivity | eexists; split; reflexivity]]. }
  all: repeat first [step_resolved H | step_branch].
  all: first [split; reflexivity | split; [reflexivity | eexists; split; reflexivity]].
Qed.

(** C1, as amended.  When no call of the environment throws,
    [respondToMessage] completes and posts exactly one response whose
    [command] is the request's [command], for every request except:
    [codeReviewFileReviewed], [endCodeReview], [fetchAvatar],
    [rescanForRepos], [setRepoState] and [showErrorMessage], and a
    [loadRepos] request that asks for a check which reports changes.
    For those it posts nothing. *)
Theorem respondToMessage_posts_one_response (H : never_rejects env) msg v w :
  let r := respondToMessage env msg v w in
  outcome r = Completed tt /\
  if posts_nothing env msg w then responses (history r) = []
  else exists resp, responses (history r) = [resp] /\ command resp = request_command msg.
Proof. exact (dispatch_resolved H msg v w). Qed.

(** C2, as amended.  Every run of [respondToMessage] begins by muting
    the file watcher.  A run that completes (every awaited call
    resolved, with or without an error value) has exactly one [mute()]
    and one [unmute()], the latter as its last step.  A run abandoned
    because an awaited call rejected never reaches [unmute()].  Runs
    complete when the environment never rejects. *)
Theorem mute_unmute_pairing msg v w :
  let r := respondToMessage env msg v w in
  head (events (history r)) = Some repoFileWatcher_mute /\
  match outcome r with
  | Completed _ =>
      mutings (history r) = [repoFileWatcher_mute; repoFileWatcher_unmute] /\
      last (events (history r)) = Some repoFileWatcher_unmute
  | Aborted => mutings (history r) = [repoFileWatcher_mute]
  end /\
  (never_rejects env -> outcome r = Completed tt).
Proof.
  intros r. split; [|split]; [| |intros H; exact (proj1 (dispatch_resolved H msg v w))];
    subst r.
  - destruct msg; evaluate; repeat first [step_settled | step_branch]; try reflexivity.
    rewrite deleteOnRemotes_loop_run_all.
    destruct (run_all_policy env _ w0) as [[[errs|] attempted] w']; reflexivity.
  - destruct msg; evaluate.
    17: { step_settled; [|reflexivity].
          rewrite deleteOnRemotes_loop_run_all.
          destruct (run_all_policy env _ w0) as [[[errs|] attempted] w']; evaluate.
          - change (?a :: ?b :: ?l ++ ?m) with ([a; b] ++ l ++ m)%list.
            split.
            + rewrite !mutings_app, mutings_attempted. reflexivity.
            + unfold events. rewrite app_assoc, map_app. apply last_snoc.
          - change (?a :: ?b :: ?l) with ([a; b] ++ l)%list.
            rewrite !mutings_app, mutings_attempted. reflexivity. }
    all: repeat first [step_settled | step_branch].
    all: first [reflexivity | split; reflexivity | discriminate].
Qed.

(** C3, as amended.  In the [addTag], [cherrypickCommit] and
    [createPullRequest] (with push) cases, a first sub-operation that
    returns an error ends the sequence: the second one is not attempted
    and [errors] has that single entry.  The [editUserDetails] case
    always attempts both [setConfigValue] calls, the second whatever
    the first returned, and [errors] starts with their two results; the
    local overrides are unset only when both returned [null], and then
    every requested unset is attempted. *)
Theorem short_circuit_commands v w :
  (forall repo tagName commitHash lightweight message pushToRemote e w1,
     let first := dataSource_addTag repo tagName commitHash lightweight message in
     perform env first w = (Resolved (Some e), w1) ->
     let r := respondToMessage env
                (RequestAddTag repo tagName commitHash lightweight message pushToRemote) v w in
     outcome r = Completed tt /\
     attempts (history r) = [first] /\
     responses (history r) = [{| command := "addTag"; body := WithErrors [Some e] |}]) /\
  (forall repo commitHash parentIndex recordOrigin noCommit e w1,
     let first := dataSource_cherrypickCommit repo commitHash parentIndex recordOrigin noCommit in
     perform env first w = (Resolved (Some e), w1) ->
     let r := respondToMessage env
                (RequestCherrypickCommit repo commitHash parentIndex recordOrigin noCommit) v w in
     outcome r = Completed tt /\
     attempts (history r) = [first] /\
     responses (history r) = [{| command := "cherrypickCommit"; body := WithErrors [Some e] |}]) /\
  (forall repo config sourceRemote sourceOwner sourceRepo sourceBranch e w1,
     let first := dataSource_pushBranch repo sourceBranch sourceRemote true Normal in
     perform env first w = (Resolved (Some e), w1) ->
     let r := respondToMessage env
                (RequestCreatePullRequest repo config sourceRemote sourceOwner sourceRepo
                   sourceBranch true) v w in
     outcome r = Completed tt /\
     attempts (history r) = [first] /\
     responses (history r) =
       [{| command := "createPullRequest"; body := CreatePullRequestBody true [Some e] |}]) /\
  (forall repo name email location deleteLocalName deleteLocalEmail e0 e1 w1 w2,
     let setName := dataSource_setConfigValue repo (GIT_CONFIG_USER_NAME env) name location in
     let setEmail := dataSource_setConfigValue repo (GIT_CONFIG_USER_EMAIL env) email location in
     let unsets : list Operation :=
       ((if deleteLocalName : bool
         then [dataSource_unsetConfigValue repo (GIT_CONFIG_USER_NAME env) Local] else []) ++
        (if deleteLocalEmail : bool
         then [dataSource_unsetConfigValue repo (GIT_CONFIG_USER_EMAIL env) Local] else []))%list in
     perform env setName w = (Resolved e0, w1) ->
     perform env setEmail w1 = (Resolved e1, w2) ->
     let r := respondToMessage env
                (RequestEditUserDetails repo name email location deleteLocalName
                   deleteLocalEmail) v w in
     if is_null e0 && is_null e1 then
       forall errs w3,
         run_all_policy env unsets w2 = (Completed errs, unsets, w3) ->
         outcome r = Completed tt /\
         attempts (history r) = setName :: setEmail :: unsets /\
         responses (history r) =
           [{| command := "editUserDetails"; body := WithErrors (e0 :: e1 :: errs) |}]
     else
       outcome r = Completed tt /\
       attempts (history r) = [setName; setEmail] /\
       responses (history r) =
         [{| command := "editUserDetails"; body := WithErrors [e0; e1] |}]).
Proof.
  cbv zeta. split; [|split; [|split]].
  - intros * H. evaluate. rewrite H. evaluate. repeat split; reflexivity.
  - intros * H. evaluate. rewrite H. evaluate. repeat split; reflexivity.
  - intros * H. evaluate. rewrite H. evaluate. repeat split; reflexivity.
  - intros * H0 H1. evaluate. rewrite H0. evaluate. rewrite H1. evaluate.
    destruct e0, e1; evaluate; try (repeat split; reflexivity).
    destruct deleteLocalName, deleteLocalEmail; cbn [app run_all_policy]; intros errs w3;
      evaluate.
    + destruct (perform env _ w2) as [[e2|] w4]; [|discriminate].
      destruct (perform env _ w4) as [[e3|] w5]; [|discriminate].
      intros [= <- <-]. evaluate. repeat split; reflexivity.
    + destruct (perform env _ w2) as [[e2|] w4]; [|discriminate].
      intros [= <- <-]. evaluate. repeat split; reflexivity.
    + destruct (perform env _ w2) as [[e2|] w4]; [|discriminate].
      intros [= <- <-]. evaluate. repeat split; reflexivity.
    + intros [= <- <-]. repeat split; reflexivity.
Qed.

(** The errors of a completed run-all sequence are index-aligned with
    its sub-operations: each is what the environment returned to the
    sub-operation at the same position. *)
Lemma run_all_policy_aligned ops w errs attempted w' :
  run_all_policy env ops w = (Completed errs, attempted, w') ->
  attempted = ops /\
  Forall2 (fun op e => exists wa wb, perform env op wa = (Resolved e, wb)) ops errs.
Proof.
  revert w errs attempted w'. induction ops as [|op rest IH]; intros w errs attempted w'; cbn.
  - intros [= <- <- <-]. split; [reflexivity | constructor].
  - destruct (perform env op w) as [[e|] w1] eqn:Hop; [|discriminate].
    destruct (run_all_policy env rest w1) as [[[errs'|] attempted'] w2] eqn:Hrest;
      [|discriminate].
    intros [= <- <- <-]. destruct (IH _ _ _ _ Hrest) as [-> Hall].
    split; [reflexivity|]. constructor; [exists w, w1; exact Hop | exact Hall].
Qed.

(** C4.  In the [deleteBranch] and [deleteUserDetails] cases every
    requested sub-operation is attempted whatever the earlier ones
    returned, and [errors] has one entry per attempt, in the order of
    the attempts: the local delete and then every remote deletion
    ([1 + m] entries, the first being the local delete's error when it
    failed); the unset of the name, if requested, and then the unset of
    the e-mail address, if requested. *)
Theorem run_all_commands (H : never_rejects env) v w :
  (forall repo branchName forceDelete deleteOnRemotes,
     let ops := dataSource_deleteBranch repo branchName forceDelete
                :: map (dataSource_deleteRemoteBranch repo branchName) deleteOnRemotes in
     let r := respondToMessage env
                (RequestDeleteBranch repo branchName forceDelete deleteOnRemotes) v w in
     exists errs w',
       run_all_policy env ops w = (Completed errs, ops, w') /\
       outcome r = Completed tt /\
       attempts (history r) = ops /\
       responses (history r) = [{| command := "deleteBranch"; body := WithErrors errs |}] /\
       length errs = S (length deleteOnRemotes) /\
       Forall2 (fun op e => exists wa wb, perform env op wa = (Resolved e, wb)) ops errs /\
       (forall e w1,
          perform env (dataSource_deleteBranch repo branchName forceDelete) w
            = (Resolved (Some e), w1) ->
          head errs = Some (Some e))) /\
  (forall repo (name email : bool) location,
     let ops : list Operation :=
       ((if name
         then [dataSource_unsetConfigValue repo (GIT_CONFIG_USER_NAME env) location] else []) ++
        (if email
         then [dataSource_unsetConfigValue repo (GIT_CONFIG_USER_EMAIL env) location] else []))%list in
     let r := respondToMessage env (RequestDeleteUserDetails repo name email location) v w in
     exists errs w',
       run_all_policy env ops w = (Completed errs, ops, w') /\
       outcome r = Completed tt /\
       attempts (history r) = ops /\
       responses (history r) =
         [{| command := "deleteUserDetails"; body := WithErrors errs |}] /\
       length errs = length ops /\
       Forall2 (fun op e => exists wa wb, perform env op wa = (Resolved e, wb)) ops errs).
Proof.
  cbv zeta. split.
  - intros repo branchName forceDelete deleteOnRemotes.
    set (ops := dataSource_deleteBranch repo branchName forceDelete :: _).
    destruct (never_rejects_run_all H ops w) as (errs & w' & Hrun & Hlen).
    exists errs, w'. pose proof (run_all_policy_aligned _ _ _ _ _ Hrun) as [_ Hall].
    split; [exact Hrun|]. subst ops. cbn [run_all_policy] in Hrun. evaluate.
    destruct (perform env _ w) as [[e|] w1]; [|discriminate].
    rewrite deleteOnRemotes_loop_run_all. evaluate.
    destruct (run_all_policy env _ w1) as [[[errs'|] attempted] w2]; [|discriminate].
    injection Hrun as <- -> <-. evaluate.
    change (?a :: ?b :: ?l ++ ?m) with ([a; b] ++ l ++ m)%list.
    rewrite !responses_app, !attempts_app, responses_attempted, attempts_attempted.
    cbn in Hlen. rewrite length_map in Hlen.
    repeat split; try reflexivity; try assumption.
    + cbn. rewrite !app_nil_r. reflexivity.
    + intros e0 w0 [= -> _]. reflexivity.
  - intros repo name email location.
    set (ops := (_ ++ _)%list).
    destruct (never_rejects_run_all H ops w) as (errs & w' & Hrun & Hlen).
    exists errs, w'. pose proof (run_all_policy_aligned _ _ _ _ _ Hrun) as [_ Hall].
    split; [exact Hrun|]. subst ops.
    destruct name, email; cbn [app run_all_policy] in *; evaluate.
    + destruct (perform env _ w) as [[e2|] w4]; [|discriminate].
      destruct (perform env _ w4) as [[e3|] w5]; [|discriminate].
      injection Hrun as <- <-. evaluate. repeat split; try reflexivity; assumption.
    + destruct (perform env _ w) as [[e2|] w4]; [|discriminate].
      injection Hrun as <- <-. evaluate. repeat split; try reflexivity; assumption.
    + destruct (perform env _ w) as [[e2|] w4]; [|discriminate].
      injection Hrun as <- <-. evaluate. repeat split; try reflexivity; assumption.
    + injection Hrun as <- <-. repeat split; try reflexivity; assumption.
Qed.

(** C5.  The one response to a [loadCommits] or a [loadRepoInfo]
    request carries the [refreshId] of the request, and the controller
    records that id as its latest for that kind of query before it
    responds: the id is assigned before the query is started, so it is
    in place at the step that asks the query.  Nothing is awaited
    before that step, and the response is posted after it. *)
Theorem refreshId_echo (H : never_rejects env) v w :
  (forall refreshId repo branches maxCommits showTags showRemoteBranches
          includeCommitsMentionedByReflogs onlyFollowFirstParent remotes hideRemotes stashes,
     let r := respondToMessage env
                (RequestLoadCommits refreshId repo branches maxCommits showTags
                   showRemoteBranches includeCommitsMentionedByReflogs onlyFollowFirstParent
                   remotes hideRemotes stashes) v w in
     exists before q between s after resp,
       history r = (before ++ q :: between ++ s :: after)%list /\
       attempts before = [] /\ asked before = [] /\
       event q = Asked (dataSource_getCommits repo branches maxCommits showTags
                          showRemoteBranches includeCommitsMentionedByReflogs
                          onlyFollowFirstParent remotes hideRemotes stashes) /\
       loadCommitsRefreshId (at_view q) = refreshId /\
       posts (history r) = [s] /\ event s = postMessage resp /\
       command resp = "loadCommits" /\
       response_refreshId resp = Some refreshId) /\
  (forall refreshId repo showRemoteBranches hideRemotes,
     let r := respondToMessage env
                (RequestLoadRepoInfo refreshId repo showRemoteBranches hideRemotes) v w in
     exists before q between s after resp,
       history r = (before ++ q :: between ++ s :: after)%list /\
       attempts before = [] /\ asked before = [] /\
       event q = Asked (dataSource_getRepoInfo repo showRemoteBranches hideRemotes) /\
       loadRepoInfoRefreshId (at_view q) = refreshId /\
       posts (history r) = [s] /\ event s = postMessage resp /\
       command resp = "loadRepoInfo" /\
       response_refreshId resp = Some refreshId).
Proof.
  cbv zeta. split; intros; evaluate; repeat first [step_resolved H | step_branch].
  all: first [ eexists [_], _, [], _, _, _; repeat split; reflexivity
             | eexists [_], _, [_], _, _, _; repeat split; reflexivity ].
Qed.

(** What the [loadRepoInfo] case does with the error a load reports.
    It probes the repository root only when the reported error is
    truthy (neither [null] nor the empty string).  Then, if the probe
    finds no root, the response carries no error and [isRepo] is false;
    if it finds one, the response carries the reported error and
    [isRepo] is true.  When the reported error is not truthy there is
    no probe: the result is sent as it came, with [isRepo] true. *)
Theorem loadRepoInfo_repository_gone v w refreshId repo showRemoteBranches hideRemotes
    info w1 :
  ask env (dataSource_getRepoInfo repo showRemoteBranches hideRemotes) w = (Resolved info, w1) ->
  let r := respondToMessage env
             (RequestLoadRepoInfo refreshId repo showRemoteBranches hideRemotes) v w in
  let reply (info' : GitRepoInfo) (isRepo : bool) :=
    [{| command := "loadRepoInfo"; body := LoadRepoInfoBody refreshId info' isRepo |}] in
  if truthy (repoInfo_error info) then
    (forall w2, ask env (dataSource_repoRoot repo) w1 = (Resolved None, w2) ->
                responses (history r) = reply (clear_error info) false) /\
    (forall root w2, ask env (dataSource_repoRoot repo) w1 = (Resolved (Some root), w2) ->
                     responses (history r) = reply info true)
  else
    responses (history r) = reply info true /\
    ~ In (Asked (dataSource_repoRoot repo)) (events (history r)).
Proof.
  intros Hinfo. cbv zeta. evaluate. rewrite Hinfo. evaluate.
  destruct (truthy (repoInfo_error info)); evaluate.
  - split; intros; rewrite H; evaluate; repeat first [step_settled | step_branch];
      reflexivity.
  - repeat first [step_settled | step_branch]; (split; [reflexivity|]); cbn;
      intros Hin; repeat (destruct Hin as [Hin|Hin]; [discriminate|]); exact Hin.
Qed.

(** What no case of the dispatcher touches. *)
Lemma dispatch_frame msg v w :
  let r := respondToMessage env msg v w in
  extensionPath (fields r) = extensionPath v /\
  isGraphViewLoaded (fields r) = isGraphViewLoaded v /\
  isPanelVisible (fields r) = isPanelVisible v /\
  loadViewTo (fields r) = loadViewTo v /\
  panel_visible (fields r) = panel_visible v.
Proof.
  cbv zeta. destruct msg; evaluate.
  17: { step_settled; [|repeat split; reflexivity].
        rewrite deleteOnRemotes_loop_run_all.
        destruct (run_all_policy env _ w0) as [[[errs|] attempted] w']; evaluate;
          repeat split; reflexivity. }
  all: repeat first [step_settled | step_branch].
  all: repeat split; reflexivity.
Qed.

(** How the dispatcher treats [currentRepo]. *)
Lemma dispatch_currentRepo msg v w :
  let r := respondToMessage env msg v w in
  match msg with
  | RequestLoadRepoInfo _ repo _ _ =>
      match responses (history r) with
      | [] => currentRepo (fields r) = currentRepo v
      | _ :: _ =>
          currentRepo (fields r) = Some repo /\
          if bool_decide (Some repo = currentRepo v) then
            ~ In (Asked (extensionState_setLastActiveRepo repo)) (events (history r)) /\
            ~ In (repoFileWatcher_start repo) (events (history r))
          else
            In (Asked (extensionState_setLastActiveRepo repo)) (events (history r)) /\
            (outcome r = Completed tt ->
             In (repoFileWatcher_start repo) (events (history r)))
      end
  | _ => currentRepo (fields r) = currentRepo v
  end.
Proof.
  cbv zeta. destruct msg; evaluate.
  17: { step_settled; [|reflexivity].
        rewrite deleteOnRemotes_loop_run_all.
        destruct (run_all_policy env _ w0) as [[[errs|] attempted] w']; reflexivity. }
  31: { destruct (ask env _ w) as [[info|] w1]; evaluate; [|reflexivity].
        destruct (truthy (repoInfo_error info)); evaluate.
        - destruct (ask env _ w1) as [[root|] w2]; evaluate; [|reflexivity].
          destruct root; evaluate;
            destruct (bool_decide (Some repo = currentRepo v)) eqn:Hsame; evaluate;
            try (destruct (ask env _ w2) as [[[]|] w3]; evaluate); cbn;
            try (apply bool_decide_eq_true in Hsame);
            intuition (try discriminate; auto).
        - destruct (bool_decide (Some repo = currentRepo v)) eqn:Hsame; evaluate;
            try (destruct (ask env _ w1) as [[[]|] w3]; evaluate); cbn;
            try (apply bool_decide_eq_true in Hsame);
            intuition (try discriminate; auto). }
  all: repeat first [step_settled | step_branch].
  all: reflexivity.
Qed.

End Dispatch.

(** *** The dispatcher on examples *)

Lemma respondToMessage_posts_one_response_witness :
  never_rejects quiet_env /\
  let r := respondToMessage quiet_env
             (RequestAddRemote "/repo" "origin" "https://example.org/repo.git" None true)
             fresh_view tt in
  outcome r = Completed tt /\
  exists resp, responses (history r) = [resp] /\ command resp = "addRemote".
Proof.
  assert (H : never_rejects quiet_env) by (split; intros; do 2 eexists; reflexivity).
  split; [exact H|].
  exact (respondToMessage_posts_one_response quiet_env H
           (RequestAddRemote "/repo" "origin" "https://example.org/repo.git" None true)
           fresh_view tt).
Defined.

(** C1 as stated fails: [endCodeReview] is neither of the two named
    exceptions, and its case posts nothing. *)
Lemma endCodeReview_posts_no_response :
  let msg := RequestEndCodeReview "/repo" "1a2b3c" in
  let r := respondToMessage quiet_env msg fresh_view tt in
  request_command msg <> "codeReviewFileReviewed" /\
  request_command msg <> "setRepoState" /\
  outcome r = Completed tt /\
  responses (history r) = [].
Proof. cbn. repeat split; discriminate. Qed.

Lemma mute_unmute_pairing_witness :
  never_rejects quiet_env /\
  let r := respondToMessage quiet_env (RequestFetch "/repo" (Some "origin") true)
             fresh_view tt in
  outcome r = Completed tt /\
  mutings (history r) = [repoFileWatcher_mute; repoFileWatcher_unmute] /\
  last (events (history r)) = Some repoFileWatcher_unmute.
Proof.
  assert (H : never_rejects quiet_env) by (split; intros; do 2 eexists; reflexivity).
  split; [exact H|].
  destruct (mute_unmute_pairing quiet_env (RequestFetch "/repo" (Some "origin") true)
              fresh_view tt) as (_ & Hpair & Hdone).
  split; [exact (Hdone H) | exact Hpair].
Defined.

(** C2 as stated fails: when the awaited [addRemote] rejects, the file
    watcher has been muted and is never unmuted. *)
Lemma rejected_call_leaves_watcher_muted :
  let op := dataSource_addRemote "/repo" "origin" "https://example.org/repo.git" None true in
  let r := respondToMessage rejecting_env
             (RequestAddRemote "/repo" "origin" "https://example.org/repo.git" None true)
             fresh_view tt in
  perform rejecting_env op tt = (Rejected, tt) /\
  outcome r = Aborted /\
  events (history r) = [repoFileWatcher_mute; Attempted op] /\
  ~ In repoFileWatcher_unmute (events (history r)).
Proof.
  cbn. split; [reflexivity | split; [reflexivity | split; [reflexivity|]]].
  intros [H|[H|[]]]; discriminate.
Qed.

Lemma short_circuit_commands_witness :
  let addTag := dataSource_addTag "/repo" "v1.0" "1a2b3c" true "" in
  let setName := dataSource_setConfigValue "/repo" "user.name" "Ada" Local in
  let setEmail := dataSource_setConfigValue "/repo" "user.email" "ada@example.org" Local in
  let r := respondToMessage (failing first_step)
             (RequestAddTag "/repo" "v1.0" "1a2b3c" true "" (Some "origin")) fresh_view tt in
  let r' := respondToMessage (failing sets_user_name)
              (RequestEditUserDetails "/repo" "Ada" "ada@example.org" Local true true)
              fresh_view tt in
  perform (failing first_step) addTag tt = (Resolved (Some "failed"), tt) /\
  (outcome r = Completed tt /\ attempts (history r) = [addTag] /\
   responses (history r) = [{| command := "addTag"; body := WithErrors [Some "failed"] |}]) /\
  perform (failing sets_user_name) setName tt = (Resolved (Some "failed"), tt) /\
  perform (failing sets_user_name) setEmail tt = (Resolved None, tt) /\
  (outcome r' = Completed tt /\ attempts (history r') = [setName; setEmail] /\
   responses (history r') =
     [{| command := "editUserDetails"; body := WithErrors [Some "failed"; None] |}]).
Proof.
  split; [reflexivity|]. split.
  - exact (proj1 (short_circuit_commands (failing first_step) fresh_view tt)
             "/repo" "v1.0" "1a2b3c" true "" (Some "origin") "failed" tt eq_refl).
  - split; [reflexivity|]. split; [reflexivity|].
    exact (proj2 (proj2 (proj2 (short_circuit_commands (failing sets_user_name)
                                  fresh_view tt)))
             "/repo" "Ada" "ada@example.org" Local true true (Some "failed") None tt tt
             eq_refl eq_refl).
Defined.

(** C3 as stated fails for [editUserDetails]: the first sub-operation
    (set the name) fails, yet the second (set the e-mail address) is
    attempted and [errors] has two entries, not one. *)
Lemma editUserDetails_sets_email_after_name_failed :
  let setName := dataSource_setConfigValue "/repo" "user.name" "Ada" Local in
  let setEmail := dataSource_setConfigValue "/repo" "user.email" "ada@example.org" Local in
  let r := respondToMessage (failing sets_user_name)
             (RequestEditUserDetails "/repo" "Ada" "ada@example.org" Local true true)
             fresh_view tt in
  perform (failing sets_user_name) setName tt = (Resolved (Some "failed"), tt) /\
  attempts (history r) = [setName; setEmail] /\
  In setEmail (attempts (history r)) /\
  exists errs,
    responses (history r) = [{| command := "editUserDetails"; body := WithErrors errs |}] /\
    length errs = 2%nat.
Proof.
  cbn. split; [reflexivity | split; [reflexivity | split; [right; left; reflexivity|]]].
  eexists. split; reflexivity.
Qed.

Lemma run_all_commands_witness :
  let env := failing local_and_upstream in
  let r := respondToMessage env
             (RequestDeleteBranch "/repo" "feature" false ["origin"; "upstream"])
             fresh_view tt in
  never_rejects env /\
  outcome r = Completed tt /\
  attempts (history r) =
    [dataSource_deleteBranch "/repo" "feature" false;
     dataSource_deleteRemoteBranch "/repo" "feature" "origin";
     dataSource_deleteRemoteBranch "/repo" "feature" "upstream"] /\
  responses (history r) =
    [{| command := "deleteBranch"; body := WithErrors [Some "failed"; None; Some "failed"] |}].
Proof.
  cbv zeta.
  assert (H : never_rejects (failing local_and_upstream)).
  { split; [intros op w; cbn; destruct (local_and_upstream op) | intros q w];
      do 2 eexists; reflexivity. }
  split; [exact H|].
  destruct (proj1 (run_all_commands (failing local_and_upstream) H fresh_view tt)
              "/repo" "feature" false ["origin"; "upstream"])
    as (errs & w' & Hrun & Hout & Hatt & Hresp & _).
  injection Hrun as <- <-.
  split; [exact Hout | split; [exact Hatt | exact Hresp]].
Defined.

Lemma refreshId_echo_witness :
  let r := respondToMessage quiet_env (RequestLoadRepoInfo 42 "/repo" true [])
             fresh_view tt in
  never_rejects quiet_env /\
  exists before q between s after resp,
    history r = (before ++ q :: between ++ s :: after)%list /\
    attempts before = [] /\ asked before = [] /\
    event q = Asked (dataSource_getRepoInfo "/repo" true []) /\
    loadRepoInfoRefreshId (at_view q) = 42 /\
    posts (history r) = [s] /\ event s = postMessage resp /\
    command resp = "loadRepoInfo" /\
    response_refreshId resp = Some 42.
Proof.
  assert (H : never_rejects quiet_env) by (split; intros; do 2 eexists; reflexivity).
  split; [exact H|].
  exact (proj2 (refreshId_echo quiet_env H fresh_view tt) 42 "/repo" true []).
Defined.

Lemma loadRepoInfo_repository_gone_witness :
  let env := repoInfo_env (Some "fatal: not a git repository") None in
  let info := {| repoInfo_data := JsNull;
                 repoInfo_error := Some "fatal: not a git repository" |} in
  let r := respondToMessage env (RequestLoadRepoInfo 42 "/repo" true []) fresh_view tt in
  ask env (dataSource_getRepoInfo "/repo" true []) tt = (Resolved info, tt) /\
  ask env (dataSource_repoRoot "/repo") tt = (Resolved None, tt) /\
  responses (history r) =
    [{| command := "loadRepoInfo";
        body := LoadRepoInfoBody 42 {| repoInfo_data := JsNull; repoInfo_error := None |}
                  false |}].
Proof.
  split; [reflexivity|]. split; [reflexivity|].
  exact (proj1 (loadRepoInfo_repository_gone
                  (repoInfo_env (Some "fatal: not a git repository") None)
                  fresh_view tt 42 "/repo" true []
                  {| repoInfo_data := JsNull;
                     repoInfo_error := Some "fatal: not a git repository" |} tt eq_refl)
           tt eq_refl).
Defined.

(** C6.  The case at the failing input: the query reports a non-null
    error (the empty string) and the repository is gone, yet the
    response carries that error and says [isRepo]; the root was never
    probed.  The test of the reported error is one of truthiness,
    where the cases that test an [ErrorInfo] elsewhere compare it with
    [null]. *)
Lemma empty_error_is_not_reclassified :
  let env := repoInfo_env (Some "") None in
  let info := {| repoInfo_data := JsNull; repoInfo_error := Some "" |} in
  let r := respondToMessage env (RequestLoadRepoInfo 42 "/repo" true []) fresh_view tt in
  ask env (dataSource_getRepoInfo "/repo" true []) tt = (Resolved info, tt) /\
  repoInfo_error info <> None /\
  ask env (dataSource_repoRoot "/repo") tt = (Resolved None, tt) /\
  responses (history r) =
    [{| command := "loadRepoInfo"; body := LoadRepoInfoBody 42 info true |}] /\
  ~ In (Asked (dataSource_repoRoot "/repo")) (events (history r)).
Proof.
  cbn. repeat split; try discriminate.
  intros H; repeat (destruct H as [H|H]; [discriminate|]); exact H.
Qed.

(** ** Properties of rendering and of the callbacks *)

Section Render.

Context (env : Environment).

(** A render in an environment that never rejects: it completes, it
    only asks queries, it leaves [isGraphViewLoaded] telling whether
    the repository manager reported any repository and [loadViewTo]
    empty, and the body it produces is fixed by what the data source
    said about the Git executable and by the number of repositories. *)
Lemma getHtmlForWebview_resolved (H : never_rejects env) v w :
  exists html (repos : GitRepoSet) (gitUnknown : bool) wr wr' wg wg' w' h,
    getHtmlForWebview env v w =
      {| outcome := Completed html;
         fields := set_loadViewTo None (set_isGraphViewLoaded (0 <? size repos)%nat v);
         world := w'; history := h |} /\
    ask env repoManager_getRepos wr = (Resolved repos, wr') /\
    ask env dataSource_isGitExecutableUnknown wg = (Resolved gitUnknown, wg') /\
    renders h = [] /\ responses h = [] /\
    match html_body html with
    | UnableToFindGit _ => gitUnknown = true
    | GraphShell _ _ _ initialState _ =>
        gitUnknown = false /\ (0 <? size repos)%nat = true /\
        initial_loadViewTo initialState = loadViewTo v /\
        initial_repos initialState = repos /\
        initial_loadRepoInfoRefreshId initialState = loadRepoInfoRefreshId v /\
        initial_loadCommitsRefreshId initialState = loadCommitsRefreshId v
    | NoRepositories _ _ => gitUnknown = false /\ (0 <? size repos)%nat = false
    end.
Proof.
  evaluate. do 2 step_kept H.
  destruct (config_fetchAvatars a); evaluate; repeat step_kept H.
  all: destruct (colour_loop _ _ _) as [colorVars colorParams]; evaluate.
  all: repeat step_kept H.
  all: cbn [initial_repos initial_config graphColours].
  all: match goal with
       | Hg : ask env dataSource_isGitExecutableUnknown _ = (Resolved ?g, _) |- _ =>
           destruct g; evaluate; repeat step_kept H
       end.
  all: try match goal with
           | |- context [if Nat.ltb 0 ?n then _ else _] =>
               destruct (Nat.ltb 0 n) eqn:Hsize; evaluate; repeat step_kept H
           end.
  all: match goal with
       | Hr : ask env repoManager_getRepos _ = (Resolved ?repos, _) |- _ =>
           eexists; exists repos; do 7 eexists
       end.
  all: try match goal with
           | Hs : _ = ?c |- context [set_isGraphViewLoaded ?b _] =>
               replace b with c by (symmetry; exact Hs)
           end.
  all: (split; [reflexivity|]); (split; [eassumption|]); (split; [eassumption|]).
  all: cbn; repeat split; reflexivity.
Qed.

(** What [update()] never touches, in any environment. *)
Lemma update_frame v w :
  let r := update env v w in
  panel_visible (fields r) = panel_visible v /\
  isPanelVisible (fields r) = isPanelVisible v /\
  currentRepo (fields r) = currentRepo v.
Proof.
  cbv zeta. evaluate. do 2 (step_settled; [|repeat split; reflexivity]).
  destruct (config_fetchAvatars a); evaluate.
  all: repeat (step_settled; [|repeat split; reflexivity]).
  all: destruct (colour_loop _ _ _) as [colorVars colorParams]; evaluate.
  all: repeat (step_settled; [|repeat split; reflexivity]).
  all: cbn [initial_repos initial_config graphColours].
  all: repeat first [step_branch
                    | match goal with
                      | |- context [if Nat.ltb 0 ?n then _ else _] =>
                          destruct (Nat.ltb 0 n); evaluate
                      end
                    | step_settled].
  all: repeat split; reflexivity.
Qed.

(** [update()] in an environment that never rejects: the render, then
    the document handed to the webview. *)
Lemma update_resolved (H : never_rejects env) v w :
  exists html (repos : GitRepoSet) w' h,
    let v' := set_loadViewTo None (set_isGraphViewLoaded (0 <? size repos)%nat v) in
    getHtmlForWebview env v w =
      {| outcome := Completed html; fields := v'; world := w'; history := h |} /\
    update env v w =
      {| outcome := Completed tt; fields := v'; world := w';
         history := h ++ [ {| at_view := v'; event := set_webview_html html |} ] |} /\
    renders h = [] /\ responses h = [].
Proof.
  destruct (getHtmlForWebview_resolved H v w)
    as (html & repos & g & wr & wr' & wg & wg' & w' & h & Hrun & _ & _ & Hrenders & Hposts & _).
  exists html, repos, w', h. cbv zeta. split; [exact Hrun|].
  split; [|split; assumption].
  cbv beta iota zeta delta [update mbind handler_bind emit]. rewrite Hrun. reflexivity.
Qed.

Lemma renders_app h1 h2 : renders (h1 ++ h2) = (renders h1 ++ renders h2)%list.
Proof. apply omap_app. Qed.

(** A series of requests leaves [loadViewTo] as it was. *)
Lemma after_requests_loadViewTo msgs v w :
  loadViewTo (fst (after_requests env msgs v w)) = loadViewTo v.
Proof.
  revert v w. induction msgs as [|msg rest IH]; intros v w; [reflexivity|].
  cbn [after_requests]. rewrite IH.
  exact (proj1 (proj2 (proj2 (proj2 (dispatch_frame env msg v w))))).
Qed.

(** C8.  When the panel goes from visible to hidden, the callback stops
    the file watcher and clears [currentRepo]; when it goes from hidden
    to visible, the callback does what [update()] does, a full render
    handed to the webview; when the reported visibility is the recorded
    one, the callback changes nothing. *)
Theorem visibility_transitions v w :
  let r := onDidChangeViewState env v w in
  (isPanelVisible v = true -> panel_visible v = false ->
     outcome r = Completed tt /\
     events (history r) = [repoFileWatcher_stop] /\
     currentRepo (fields r) = None /\
     isPanelVisible (fields r) = false /\
     world r = w) /\
  (isPanelVisible v = false -> panel_visible v = true ->
     history r = history (update env v w) /\
     outcome r = outcome (update env v w) /\
     (outcome r = Completed tt -> isPanelVisible (fields r) = true) /\
     (never_rejects env ->
      outcome r = Completed tt /\ exists html, renders (history r) = [html])) /\
  (panel_visible v = isPanelVisible v ->
     r = {| outcome := Completed tt; fields := v; world := w; history := [] |}).
Proof.
  cbv zeta. split; [|split].
  - intros Hrec Hnow. evaluate. rewrite Hrec, Hnow. cbn. rewrite ?Hnow.
    repeat split; reflexivity.
  - intros Hrec Hnow.
    cbv beta iota zeta delta [onDidChangeViewState mbind mret handler_bind handler_ret
                              this assign negb].
    rewrite Hrec, Hnow. cbn [eqb].
    assert (Hupdate :
      never_rejects env ->
      outcome (update env v w) = Completed tt /\
      exists html, renders (history (update env v w)) = [html]).
    { intros H. destruct (update_resolved H v w)
        as (html & repos & w' & h & _ & -> & Hrenders & _).
      split; [reflexivity|]. exists html. cbn [history].
      rewrite renders_app, Hrenders. reflexivity. }
    destruct (update env v w) as [[[]|] v1 w1 h1] eqn:Hupd; cbn.
    + rewrite app_nil_r.
      split; [reflexivity | split; [reflexivity | split]].
      * intros _. pose proof (update_frame v w) as (Hp & _). rewrite Hupd in Hp.
        cbn in Hp. rewrite Hp. exact Hnow.
      * intros H. split; [reflexivity | exact (proj2 (Hupdate H))].
    + split; [reflexivity | split; [reflexivity | split]].
      * discriminate.
      * intros H. destruct (Hupdate H) as [Hdone _]. discriminate.
  - intros Hsame. evaluate. rewrite Hsame, Bool.eqb_reflx. reflexivity.
Qed.

(** C9, as amended.  Every render leaves [loadViewTo] empty before it
    returns, and the next render, whatever requests were dispatched in
    between, embeds no target: a target is embedded in at most one
    render.  The pending target is embedded in the initial state when
    the render emits one, which is on the interactive shell (Git known
    and at least one repository); on the two other surfaces (Git
    unknown, or no repository) the document carries no initial state,
    and the pending target is dropped unseen. *)
Theorem loadViewTo_embedded_once (H : never_rejects env) v w :
  let r := getHtmlForWebview env v w in
  exists html,
    outcome r = Completed html /\
    (forall st, embedded_initialState html = Some st ->
                initial_loadViewTo st = loadViewTo v) /\
    ((forall wa, fst (ask env dataSource_isGitExecutableUnknown wa) = Resolved false) ->
     forall repos : GitRepoSet,
       (forall wa, fst (ask env repoManager_getRepos wa) = Resolved repos) ->
       ((0 <? size repos)%nat = true ->
        exists st, embedded_initialState html = Some st /\
                   initial_loadViewTo st = loadViewTo v) /\
       ((0 <? size repos)%nat = false -> embedded_initialState html = None)) /\
    ((forall wa, fst (ask env dataSource_isGitExecutableUnknown wa) = Resolved true) ->
     embedded_initialState html = None) /\
    loadViewTo (fields r) = None /\
    forall msgs w2,
      let later := after_requests env msgs (fields r) w2 in
      exists html',
        outcome (getHtmlForWebview env (fst later) (snd later)) = Completed html' /\
        forall st, embedded_initialState html' = Some st -> initial_loadViewTo st = None.
Proof.
  cbv zeta.
  destruct (getHtmlForWebview_resolved H v w)
    as (html & repos & g & wr & wr' & wg & wg' & w' & h & -> & Hr & Hg & _ & _ & Hbody).
  exists html. cbn [outcome fields].
  split; [reflexivity|]. split; [|split; [|split; [|split; [reflexivity|]]]].
  - intros st. unfold embedded_initialState.
    destruct (html_body html); try discriminate.
    intros [= <-]. exact (proj1 (proj2 (proj2 Hbody))).
  - intros Hknown repos0 Hrepos.
    specialize (Hknown wg). rewrite Hg in Hknown. injection Hknown as ->.
    specialize (Hrepos wr). rewrite Hr in Hrepos. injection Hrepos as ->.
    unfold embedded_initialState.
    destruct (html_body html) as [|? ? ? st ?|].
    + discriminate.
    + destruct Hbody as (_ & Hsome & Htarget & _). split.
      * intros _. exists st. split; [reflexivity | exact Htarget].
      * intros Hnone. rewrite Hsome in Hnone. discriminate.
    + destruct Hbody as [_ Hnone]. split; [|reflexivity].
      intros Hsome. rewrite Hsome in Hnone. discriminate.
  - intros Hunknown.
    specialize (Hunknown wg). rewrite Hg in Hunknown. injection Hunknown as ->.
    unfold embedded_initialState.
    destruct (html_body html) as [|? ? ? st ?|].
    + reflexivity.
    + destruct Hbody as [Hfalse _]. discriminate.
    + destruct Hbody as [Hfalse _]. discriminate.
  - intros msgs w2.
    set (later := after_requests env msgs _ w2).
    destruct (getHtmlForWebview_resolved H (fst later) (snd later))
      as (html' & repos' & g' & wr0 & wr0' & wg0 & wg0' & w0' & h' & -> & _ & _ & _ & _ & Hbody').
    exists html'. split; [reflexivity|].
    intros st. unfold embedded_initialState.
    destruct (html_body html'); try discriminate.
    intros [= <-]. rewrite (proj1 (proj2 (proj2 Hbody'))).
    subst later. rewrite after_requests_loadViewTo. reflexivity.
Qed.

(** C10.  After a render, [isGraphViewLoaded] tells whether the
    repository manager knows any repository, also when the data source
    does not know the Git executable and the fixed error surface was
    rendered.  The [onDidChangeRepos] callback that follows therefore
    renders again exactly when the number of repositories it is given
    and that count lie on different sides of zero, and pushes a
    [loadRepos] response otherwise. *)
Theorem loaded_flag_counts_repos (H : never_rejects env) (repos : GitRepoSet)
    (Hrepos : forall wa, fst (ask env repoManager_getRepos wa) = Resolved repos) v w :
  let r := getHtmlForWebview env v w in
  exists html,
    outcome r = Completed html /\
    isGraphViewLoaded (fields r) = (0 <? size repos)%nat /\
    ((forall wa, fst (ask env dataSource_isGitExecutableUnknown wa) = Resolved true) ->
     exists colorVars, html_body html = UnableToFindGit colorVars) /\
    (panel_visible v = true ->
     forall ev w2,
       let r2 := onDidChangeRepos env ev (fields r) w2 in
       if (event_numRepos ev =? 0) && (0 <? size repos)%nat
          || (0 <? event_numRepos ev) && negb (0 <? size repos)%nat
       then responses (history r2) = [] /\ exists html2, renders (history r2) = [html2]
       else renders (history r2) = [] /\
            exists resp, responses (history r2) = [resp] /\ command resp = "loadRepos").
Proof.
  cbv zeta.
  destruct (getHtmlForWebview_resolved H v w)
    as (html & repos' & g & wr & wr' & wg & wg' & w' & h & -> & Hr & Hg & _ & _ & Hbody).
  assert (repos' = repos) as ->.
  { specialize (Hrepos wr). rewrite Hr in Hrepos. injection Hrepos as ->. reflexivity. }
  exists html. cbn [outcome fields]. split; [reflexivity|]. split; [reflexivity|]. split.
  - intros Hunknown. specialize (Hunknown wg). rewrite Hg in Hunknown.
    injection Hunknown as ->.
    destruct (html_body html); [eexists; reflexivity | |]; destruct Hbody; discriminate.
  - intros Hvisible ev w2.
    cbv beta iota zeta delta [onDidChangeRepos mbind mret handler_bind handler_ret this
                              assign].
    cbn [panel_visible isGraphViewLoaded set_loadViewTo set_isGraphViewLoaded].
    rewrite Hvisible. cbn [negb].
    destruct ((event_numRepos ev =? 0) && (0 <? size repos)%nat
              || (0 <? event_numRepos ev) && negb (0 <? size repos)%nat).
    + match goal with
      | |- context [update env ?v2 w2] =>
          destruct (update_resolved H v2 w2)
            as (html2 & repos2 & w2' & h2 & _ & -> & Hrenders & Hposts)
      end.
      cbn. rewrite responses_app, renders_app, Hrenders, Hposts.
      split; [reflexivity | exists html2; reflexivity].
    + evaluate. step_resolved H. split; [reflexivity|].
      eexists. split; reflexivity.
Qed.

End Render.

(** *** Rendering and the callbacks on examples *)

Lemma visibility_transitions_witness :
  let hiding := set_currentRepo (Some "/repo") (set_panel_visible false fresh_view) in
  let showing := set_isPanelVisible false fresh_view in
  never_rejects quiet_env /\
  (isPanelVisible hiding = true /\ panel_visible hiding = false /\
   events (history (onDidChangeViewState quiet_env hiding tt)) = [repoFileWatcher_stop] /\
   currentRepo (fields (onDidChangeViewState quiet_env hiding tt)) = None) /\
  (isPanelVisible showing = false /\ panel_visible showing = true /\
   exists html, renders (history (onDidChangeViewState quiet_env showing tt)) = [html]) /\
  (panel_visible fresh_view = isPanelVisible fresh_view /\
   onDidChangeViewState quiet_env fresh_view tt =
     {| outcome := Completed tt; fields := fresh_view; world := tt; history := [] |}).
Proof.
  cbv zeta.
  assert (H : never_rejects quiet_env) by (split; intros; do 2 eexists; reflexivity).
  split; [exact H|]. split; [|split].
  - destruct (proj1 (visibility_transitions quiet_env
                       (set_currentRepo (Some "/repo") (set_panel_visible false fresh_view))
                       tt) eq_refl eq_refl)
      as (_ & Hstop & Hcleared & _).
    split; [reflexivity | split; [reflexivity | split; [exact Hstop | exact Hcleared]]].
  - destruct (proj1 (proj2 (visibility_transitions quiet_env
                              (set_isPanelVisible false fresh_view) tt)) eq_refl eq_refl)
      as (_ & _ & _ & Hrender).
    split; [reflexivity | split; [reflexivity | exact (proj2 (Hrender H))]].
  - split; [reflexivity|].
    exact (proj2 (proj2 (visibility_transitions quiet_env fresh_view tt)) eq_refl).
Defined.

Lemma loadViewTo_embedded_once_witness :
  let env := one_repo_env false in
  let target := {| target_repo := "/repo"; target_commitDetails := None |} in
  let r := getHtmlForWebview env (set_loadViewTo (Some target) fresh_view) tt in
  never_rejects env /\
  exists html st,
    outcome r = Completed html /\
    embedded_initialState html = Some st /\
    initial_loadViewTo st = Some target /\
    loadViewTo (fields r) = None /\
    forall msgs w2,
      let later := after_requests env msgs (fields r) w2 in
      exists html',
        outcome (getHtmlForWebview env (fst later) (snd later)) = Completed html' /\
        forall st', embedded_initialState html' = Some st' -> initial_loadViewTo st' = None.
Proof.
  cbv zeta.
  assert (H : never_rejects (one_repo_env false)).
  { split; [intros op w | intros q w; destruct q]; do 2 eexists; reflexivity. }
  split; [exact H|].
  destruct (loadViewTo_embedded_once (one_repo_env false) H
              (set_loadViewTo (Some {| target_repo := "/repo"; target_commitDetails := None |})
                 fresh_view) tt)
    as (html & Hout & _ & Hshell & _ & Hcleared & Hnext).
  destruct (proj1 (Hshell (fun wa => eq_refl) {[ "/repo" := JsNull ]} (fun wa => eq_refl))
              eq_refl)
    as (st & Hst & Htarget).
  exists html, st.
  split; [exact Hout | split; [exact Hst | split; [exact Htarget | split]]];
    [exact Hcleared | exact Hnext].
Defined.

(** C9 as stated fails: with a target pending and the Git executable
    unknown, the render emits a document without any initial state, so
    the target is embedded nowhere, and yet it is cleared.  The same
    happens when Git is known and no repository is. *)
Lemma pending_target_dropped_without_git :
  let target := {| target_repo := "/repo"; target_commitDetails := None |} in
  let v := set_loadViewTo (Some target) fresh_view in
  let r := getHtmlForWebview (one_repo_env true) v tt in
  let r' := getHtmlForWebview quiet_env v tt in
  loadViewTo v = Some target /\
  (exists html,
     outcome r = Completed html /\
     embedded_initialState html = None /\
     loadViewTo (fields r) = None) /\
  (exists html,
     outcome r' = Completed html /\
     embedded_initialState html = None /\
     loadViewTo (fields r') = None).
Proof.
  vm_compute. split; [reflexivity|]. split; eexists; repeat split; reflexivity.
Qed.

Lemma loaded_flag_counts_repos_witness :
  let env := one_repo_env true in
  let repos : GitRepoSet := {[ "/repo" := JsNull ]} in
  let r := getHtmlForWebview env fresh_view tt in
  never_rejects env /\
  (forall wa, fst (ask env repoManager_getRepos wa) = Resolved repos) /\
  (forall wa, fst (ask env dataSource_isGitExecutableUnknown wa) = Resolved true) /\
  exists html,
    outcome r = Completed html /\
    isGraphViewLoaded (fields r) = (0 <? size repos)%nat /\
    exists colorVars, html_body html = UnableToFindGit colorVars.
Proof.
  cbv zeta.
  assert (H : never_rejects (one_repo_env true)).
  { split; [intros op w | intros q w; destruct q]; do 2 eexists; reflexivity. }
  split; [exact H|]. split; [intros wa; reflexivity|]. split; [intros wa; reflexivity|].
  destruct (loaded_flag_counts_repos (one_repo_env true) H {[ "/repo" := JsNull ]}
              (fun wa => eq_refl) fresh_view tt)
    as (html & Hout & Hloaded & Hsurface & _).
  exists html. split; [exact Hout | split; [exact Hloaded | exact (Hsurface (fun wa => eq_refl))]].
Defined.

(** ** Who changes the session state *)

Section Frame.
Context (env : Environment).


End Frame.



(** With one repository known, the flag is set although the error
    surface is what the webview shows. *)
Example loaded_with_git_unknown :
  let r := getHtmlForWebview (one_repo_env true) fresh_view tt in
  isGraphViewLoaded (fields r) = true /\
  exists html colorVars,
    outcome r = Completed html /\ html_body html = UnableToFindGit colorVars.
Proof.
  vm_compute. split; [reflexivity|]. do 2 eexists. split; reflexivity.
Qed.

(** Adding a lightweight tag that succeeds, with a requested push that
    fails: two entries, the first [null]. *)
Example addTag_push_fails :
  let bad op := match op with dataSource_pushTag _ _ _ => true | _ => false end in
  responses (history (respondToMessage (failing bad)
                        (RequestAddTag "/repo" "v1.0" "1a2b3c" true "" (Some "origin"))
                        fresh_view tt)) =
  [{| command := "addTag"; body := WithErrors [None; Some "failed"] |}].
Proof. reflexivity. Qed.

(** ** More on the dispatcher *)

Section DispatchMore.

Context (env : Environment).

Lemma renders_attempted v ops : renders (attempted_steps v ops) = [].
Proof. induction ops as [|op rest IH]; [reflexivity | exact IH]. Qed.

Lemma watcher_switches_app h1 h2 :
  watcher_switches (h1 ++ h2) = (watcher_switches h1 ++ watcher_switches h2)%list.
Proof. unfold watcher_switches, events. rewrite map_app. apply List.filter_app. Qed.

Lemma watcher_switches_attempted v ops : watcher_switches (attempted_steps v ops) = [].
Proof. induction ops as [|op rest IH]; [reflexivity | exact IH]. Qed.

(** X1.  No case of the dispatcher hands a document to the webview or
    stops the file watcher, in any environment; the only case that
    starts the watcher is [loadRepoInfo], at most once and on the
    requested repository. *)
Theorem dispatcher_leaves_webview_and_watcher msg v w :
  let r := respondToMessage env msg v w in
  renders (history r) = [] /\
  match msg with
  | RequestLoadRepoInfo _ repo _ _ =>
      watcher_switches (history r) = [] \/
      watcher_switches (history r) = [repoFileWatcher_start repo]
  | _ => watcher_switches (history r) = []
  end.
Proof.
  cbv zeta. destruct msg; evaluate.
  17: { step_settled; [|split; reflexivity].
        rewrite deleteOnRemotes_loop_run_all.
        destruct (run_all_policy env _ w0) as [[[errs|] attempted] w']; evaluate.
        - change (?a :: ?b :: ?l ++ ?m) with ([a; b] ++ l ++ m)%list.
          rewrite !renders_app, !watcher_switches_app, renders_attempted,
            watcher_switches_attempted.
          split; reflexivity.
        - change (?a :: ?b :: ?l) with ([a; b] ++ l)%list.
          rewrite !renders_app, !watcher_switches_app, renders_attempted,
            watcher_switches_attempted.
          split; reflexivity. }
  all: repeat first [step_settled | step_branch].
  all: first [split; reflexivity
             | split; [reflexivity | left; reflexivity]
             | split; [reflexivity | right; reflexivity]].
Qed.

(** X2.  A run of the dispatcher starts by muting the file watcher, on
    the fields as they were.  For [loadCommits] and [loadRepoInfo] the
    next step asks the query, and at that step, before anything is
    awaited, the request's refresh id is already the controller's
    latest one and no other field has changed: so it is in any
    environment, also when the query later rejects and no response is
    sent.  For every other request the first step after the muting
    still sees the fields untouched: no other case assigns an id
    before its first call. *)
Theorem refresh_ids_recorded_first msg v w :
  let r := respondToMessage env msg v w in
  exists q rest,
    history r = {| at_view := v; event := repoFileWatcher_mute |} :: q :: rest /\
    match msg with
    | RequestLoadCommits refreshId repo branches maxCommits showTags showRemoteBranches
        includeCommitsMentionedByReflogs onlyFollowFirstParent remotes hideRemotes stashes =>
        event q = Asked (dataSource_getCommits repo branches maxCommits showTags
                           showRemoteBranches includeCommitsMentionedByReflogs
                           onlyFollowFirstParent remotes hideRemotes stashes) /\
        at_view q = set_loadCommitsRefreshId refreshId v
    | RequestLoadRepoInfo refreshId repo showRemoteBranches hideRemotes =>
        event q = Asked (dataSource_getRepoInfo repo showRemoteBranches hideRemotes) /\
        at_view q = set_loadRepoInfoRefreshId refreshId v
    | _ => at_view q = v
    end.
Proof.
  cbv zeta. destruct msg; evaluate.
  17: { step_settled; [|do 2 eexists; split; reflexivity].
        rewrite deleteOnRemotes_loop_run_all.
        destruct (run_all_policy env _ w0) as [[[errs|] attempted] w'];
          do 2 eexists; split; reflexivity. }
  all: repeat first [step_settled | step_branch].
  all: do 2 eexists; split; [reflexivity|]; try split; reflexivity.
Qed.

(** X3.  A response with a single [error] field ([{command, error}] and
    the [merge], [rebase] and [copyToClipboard] variants) reports
    exactly what the one operation attempted for the request returned:
    the dispatcher attempts nothing else and never alters, invents or
    drops the backend's [ErrorInfo]. *)
Theorem error_passed_through msg v w resp e :
  let r := respondToMessage env msg v w in
  In resp (responses (history r)) ->
  plain_error (body resp) = Some e ->
  exists op w',
    attempts (history r) = [op] /\
    perform env op w = (Resolved e, w') /\
    responses (history r) = [resp] /\
    command resp = request_command msg.
Proof.
  cbv zeta. destruct msg; evaluate.
  17: { step_settled; [|intros []].
        rewrite deleteOnRemotes_loop_run_all.
        destruct (run_all_policy env _ w0) as [[[errs|] attempted] w']; evaluate.
        - change (?a :: ?b :: ?l ++ ?m) with ([a; b] ++ l ++ m)%list.
          rewrite !responses_app, responses_attempted.
          intros [<-|[]]. discriminate.
        - change (?a :: ?b :: ?l) with ([a; b] ++ l)%list.
          rewrite !responses_app, responses_attempted. intros []. }
  all: repeat first [step_settled_kept | step_branch].
  all: cbn [responses omap event]; intros Hin;
    repeat (destruct Hin as [<-|Hin]); try contradiction.
  all: cbn [plain_error body]; intros He; try discriminate.
  all: injection He as <-; do 2 eexists.
  all: split; [reflexivity | split; [eassumption | split; reflexivity]].
Qed.

(** X4.  Loading the repository that is already the current one does
    not touch the file watcher: after a [loadRepoInfo] for [repo], a
    second one for the same repository neither stores it as the last
    active repository again nor restarts the watcher. *)
Theorem repeated_load_keeps_watcher (H : never_rejects env) v w w2
    id1 id2 repo showRemotes1 showRemotes2 hideRemotes1 hideRemotes2 :
  let r1 := respondToMessage env
              (RequestLoadRepoInfo id1 repo showRemotes1 hideRemotes1) v w in
  let r2 := respondToMessage env
              (RequestLoadRepoInfo id2 repo showRemotes2 hideRemotes2) (fields r1) w2 in
  currentRepo (fields r1) = Some repo /\
  ~ In (Asked (extensionState_setLastActiveRepo repo)) (events (history r2)) /\
  ~ In (repoFileWatcher_start repo) (events (history r2)) /\
  currentRepo (fields r2) = Some repo.
Proof.
  intros r1 r2.
  assert (Hfirst : currentRepo (fields r1) = Some repo).
  { pose proof (dispatch_currentRepo env
                  (RequestLoadRepoInfo id1 repo showRemotes1 hideRemotes1) v w) as Hcur.
    destruct (dispatch_resolved env H
                (RequestLoadRepoInfo id1 repo showRemotes1 hideRemotes1) v w)
      as (_ & resp & Hresp & _).
    cbv zeta in Hcur. fold r1 in Hcur, Hresp. rewrite Hresp in Hcur. exact (proj1 Hcur). }
  split; [exact Hfirst|].
  pose proof (dispatch_currentRepo env
                (RequestLoadRepoInfo id2 repo showRemotes2 hideRemotes2) (fields r1) w2)
    as Hcur.
  destruct (dispatch_resolved env H
              (RequestLoadRepoInfo id2 repo showRemotes2 hideRemotes2) (fields r1) w2)
    as (_ & resp & Hresp & _).
  cbv zeta in Hcur. fold r2 in Hcur, Hresp. rewrite Hresp, Hfirst in Hcur.
  rewrite bool_decide_eq_true_2 in Hcur by reflexivity.
  destruct Hcur as (Hrepo & Hstored & Hstarted).
  split; [exact Hstored | split; [exact Hstarted | exact Hrepo]].
Qed.

(** X5.  Hiding the panel forgets the current repository, so the first
    [loadRepoInfo] after it stores the repository as the last active one
    and starts the file watcher again, also for the repository that was
    shown before the panel was hidden. *)
Theorem load_after_hide_restarts_watcher (H : never_rejects env) v w w2
    refreshId repo showRemoteBranches hideRemotes :
  isPanelVisible v = true -> panel_visible v = false ->
  let r1 := onDidChangeViewState env v w in
  let r2 := respondToMessage env
              (RequestLoadRepoInfo refreshId repo showRemoteBranches hideRemotes)
              (fields r1) w2 in
  currentRepo (fields r1) = None /\
  In (Asked (extensionState_setLastActiveRepo repo)) (events (history r2)) /\
  In (repoFileWatcher_start repo) (events (history r2)) /\
  currentRepo (fields r2) = Some repo.
Proof.
  intros Hrec Hnow r1 r2.
  assert (Hhidden : currentRepo (fields r1) = None).
  { subst r1. evaluate. rewrite Hrec, Hnow. reflexivity. }
  split; [exact Hhidden|].
  pose proof (dispatch_currentRepo env
                (RequestLoadRepoInfo refreshId repo showRemoteBranches hideRemotes)
                (fields r1) w2) as Hcur.
  destruct (dispatch_resolved env H
              (RequestLoadRepoInfo refreshId repo showRemoteBranches hideRemotes)
              (fields r1) w2) as (Hdone & resp & Hresp & _).
  cbv zeta in Hcur. fold r2 in Hcur, Hresp, Hdone. rewrite Hresp, Hhidden in Hcur.
  rewrite bool_decide_eq_false_2 in Hcur by discriminate.
  destruct Hcur as (Hrepo & Hstored & Hstarted).
  split; [exact Hstored | split; [exact (Hstarted Hdone) | exact Hrepo]].
Qed.

(** X6.  Uncommitted changes never have a code review: for the
    [UNCOMMITTED] pseudo-hash, [commitDetails] asks for the uncommitted
    details (whatever [stash] says) and [compareCommits] asks for the
    comparison of [fromHash] with [UNCOMMITTED] as requested, but
    neither looks a code review up, and the response's [codeReview] is
    [null]. *)
Theorem uncommitted_has_no_code_review (H : never_rejects env) v w :
  (forall repo hasParents stash avatarEmail refresh,
     let r := respondToMessage env
                (RequestCommitDetails repo (UNCOMMITTED env) hasParents stash avatarEmail
                   refresh) v w in
     In (dataSource_getUncommittedDetails repo) (asked (history r)) /\
     (forall id, ~ In (extensionState_getCodeReview repo id) (asked (history r))) /\
     exists data avatar,
       responses (history r) =
         [{| command := "commitDetails";
             body := CommitDetailsBody data avatar None refresh |}]) /\
  (forall repo commitHash compareWithHash fromHash refresh,
     let r := respondToMessage env
                (RequestCompareCommits repo commitHash compareWithHash fromHash
                   (UNCOMMITTED env) refresh) v w in
     asked (history r) = [dataSource_getCommitComparison repo fromHash (UNCOMMITTED env)] /\
     (forall id, ~ In (extensionState_getCodeReview repo id) (asked (history r))) /\
     exists data w',
       ask env (dataSource_getCommitComparison repo fromHash (UNCOMMITTED env)) w =
         (Resolved data, w') /\
       responses (history r) =
         [{| command := "compareCommits";
             body := CompareCommitsBody commitHash compareWithHash data None refresh |}]).
Proof.
  cbv zeta. split; intros; evaluate; rewrite !String.eqb_refl; evaluate.
  - destruct avatarEmail; evaluate; repeat step_resolved H; cbn.
    all: split; [left; reflexivity|]; split; [|do 2 eexists; reflexivity].
    all: intros id Hin; repeat (destruct Hin as [Hin|Hin]; [discriminate|]); exact Hin.
  - destruct (proj2 H (dataSource_getCommitComparison repo fromHash (UNCOMMITTED env)) w)
      as (data & w' & Hask).
    rewrite Hask. evaluate. cbn. split; [reflexivity|].
    split; [|exists data, w'; split; reflexivity].
    intros id Hin; repeat (destruct Hin as [Hin|Hin]; [discriminate|]); exact Hin.
Qed.

(** X7.  When no push is requested, [createPullRequest] attempts the
    one sub-operation that opens the pull request, yet [errors] has two
    entries: the push that was skipped is reported as [null] in front
    of the result. *)
Theorem createPullRequest_without_push v w repo config sourceRemote sourceOwner sourceRepo
    sourceBranch e w1 :
  let open_request := utils_createPullRequest config sourceOwner sourceRepo sourceBranch in
  perform env open_request w = (Resolved e, w1) ->
  let r := respondToMessage env
             (RequestCreatePullRequest repo config sourceRemote sourceOwner sourceRepo
                sourceBranch false) v w in
  outcome r = Completed tt /\
  attempts (history r) = [open_request] /\
  responses (history r) =
    [{| command := "createPullRequest"; body := CreatePullRequestBody false [None; e] |}].
Proof.
  cbv zeta. intros Hopen. evaluate. rewrite Hopen. evaluate. repeat split; reflexivity.
Qed.

(** X8.  After a first sub-operation that succeeds, the dependent one
    is attempted exactly when the request asks for it, and its result,
    error or not, is the second entry of [errors]: the push of a new
    tag when [pushToRemote] names a remote; the source-control view
    after a cherry-pick with [noCommit]; the pull request after the
    push. *)
Theorem dependent_step_follows_success v w :
  (forall repo tagName commitHash lightweight message pushToRemote w1,
     let first := dataSource_addTag repo tagName commitHash lightweight message in
     perform env first w = (Resolved None, w1) ->
     let r := respondToMessage env
                (RequestAddTag repo tagName commitHash lightweight message pushToRemote) v w in
     match pushToRemote with
     | Some remote =>
         forall e w2,
           perform env (dataSource_pushTag repo tagName remote) w1 = (Resolved e, w2) ->
           attempts (history r) = [first; dataSource_pushTag repo tagName remote] /\
           responses (history r) = [{| command := "addTag"; body := WithErrors [None; e] |}]
     | None =>
         attempts (history r) = [first] /\
         responses (history r) = [{| command := "addTag"; body := WithErrors [None] |}]
     end) /\
  (forall repo commitHash parentIndex recordOrigin (noCommit : bool) w1,
     let first := dataSource_cherrypickCommit repo commitHash parentIndex recordOrigin
                    noCommit in
     perform env first w = (Resolved None, w1) ->
     let r := respondToMessage env
                (RequestCherrypickCommit repo commitHash parentIndex recordOrigin noCommit)
                v w in
     if noCommit then
       forall e w2,
         perform env utils_viewScm w1 = (Resolved e, w2) ->
         attempts (history r) = [first; utils_viewScm] /\
         responses (history r) =
           [{| command := "cherrypickCommit"; body := WithErrors [None; e] |}]
     else
       attempts (history r) = [first] /\
       responses (history r) =
         [{| command := "cherrypickCommit"; body := WithErrors [None] |}]) /\
  (forall repo config sourceRemote sourceOwner sourceRepo sourceBranch w1 e w2,
     let first := dataSource_pushBranch repo sourceBranch sourceRemote true Normal in
     let second := utils_createPullRequest config sourceOwner sourceRepo sourceBranch in
     perform env first w = (Resolved None, w1) ->
     perform env second w1 = (Resolved e, w2) ->
     let r := respondToMessage env
                (RequestCreatePullRequest repo config sourceRemote sourceOwner sourceRepo
                   sourceBranch true) v w in
     attempts (history r) = [first; second] /\
     responses (history r) =
       [{| command := "createPullRequest";
           body := CreatePullRequestBody true [None; e] |}]).
Proof.
  cbv zeta. split; [|split].
  - intros * Hfirst. evaluate. rewrite Hfirst. evaluate.
    destruct pushToRemote as [remote|]; evaluate; [|split; reflexivity].
    intros e w2 Hsecond. rewrite Hsecond. evaluate. split; reflexivity.
  - intros * Hfirst. evaluate. rewrite Hfirst. evaluate.
    destruct noCommit; evaluate; [|split; reflexivity].
    intros e w2 Hsecond. rewrite Hsecond. evaluate. split; reflexivity.
  - intros * Hfirst Hsecond. evaluate. rewrite Hfirst. evaluate. rewrite Hsecond. evaluate.
    split; reflexivity.
Qed.

End DispatchMore.

(** ** More on rendering and on the callbacks *)

Section RenderMore.

Context (env : Environment).

(** What the initial state of a rendered document is made of. *)
Lemma getHtmlForWebview_embeds v w html st :
  let r := getHtmlForWebview env v w in
  outcome r = Completed html ->
  embedded_initialState html = Some st ->
  initial_loadViewTo st = loadViewTo v /\
  initial_loadRepoInfoRefreshId st = loadRepoInfoRefreshId v /\
  initial_loadCommitsRefreshId st = loadCommitsRefreshId v /\
  (branchLabelsAlignedToGraph (initial_config st) = true ->
   tagLabelsOnRight (initial_config st) = true) /\
  (fetchAvatars (initial_config st) = true ->
   In extensionState_isAvatarStorageAvailable (asked (history r))) /\
  In repoManager_getRepos (asked (history r)).
Proof.
  cbv zeta. follow_render.
  all: try discriminate.
  all: intros [= <-]; cbn [embedded_initialState html_body]; intros Hst;
    try discriminate.
  all: injection Hst as <-; cbn.
  all: repeat split; try reflexivity; try discriminate; auto 10.
  all: destruct (refLabelAlignment _); (discriminate || reflexivity).
Qed.

(** A render in an environment that never rejects and gives the same
    answers about Git and about the repositories throughout. *)
Lemma render_uniform (H : never_rejects env) (gitUnknown : bool) (repos : GitRepoSet)
    (Hgit : forall wa, fst (ask env dataSource_isGitExecutableUnknown wa) = Resolved gitUnknown)
    (Hrepos : forall wa, fst (ask env repoManager_getRepos wa) = Resolved repos) v w :
  exists html w' h,
    let v' := set_loadViewTo None (set_isGraphViewLoaded (0 <? size repos)%nat v) in
    getHtmlForWebview env v w =
      {| outcome := Completed html; fields := v'; world := w'; history := h |} /\
    update env v w =
      {| outcome := Completed tt; fields := v'; world := w';
         history := h ++ [ {| at_view := v'; event := set_webview_html html |} ] |} /\
    renders h = [] /\ responses h = [] /\
    body_chosen gitUnknown repos v (html_body html).
Proof.
  destruct (getHtmlForWebview_resolved env H v w)
    as (html & repos' & g & wr & wr' & wg & wg' & w' & h & Hrun & Hr & Hg & Hrenders
        & Hposts & Hbody).
  assert (repos' = repos) as ->.
  { specialize (Hrepos wr). rewrite Hr in Hrepos. injection Hrepos as ->. reflexivity. }
  assert (g = gitUnknown) as ->.
  { specialize (Hgit wg). rewrite Hg in Hgit. injection Hgit as ->. reflexivity. }
  exists html, w', h. cbv zeta. split; [exact Hrun|]. split.
  { cbv beta iota zeta delta [update mbind handler_bind emit]. rewrite Hrun. reflexivity. }
  split; [exact Hrenders|]. split; [exact Hposts|].
  unfold body_chosen. destruct (html_body html) as [cv | cv n gs st uri | cv n].
  - rewrite Hbody. exists cv. reflexivity.
  - destruct Hbody as (-> & -> & Htarget & Hset & Hid1 & Hid2).
    exists cv, n, gs, st, uri. repeat split; assumption.
  - destruct Hbody as (-> & ->). exists cv, n. reflexivity.
Qed.

(** X9.  A render, finished or not, only asks: it attempts no
    operation, posts no response and never touches the file watcher,
    and it leaves the current repository, the recorded visibility and
    the refresh ids alone.  Exactly one document reaches the webview
    when [update()] completes, none when a collaborator throws. *)
Theorem update_only_asks v w :
  let r := update env v w in
  attempts (history r) = [] /\ responses (history r) = [] /\
  mutings (history r) = [] /\ watcher_switches (history r) = [] /\
  currentRepo (fields r) = currentRepo v /\
  isPanelVisible (fields r) = isPanelVisible v /\
  loadRepoInfoRefreshId (fields r) = loadRepoInfoRefreshId v /\
  loadCommitsRefreshId (fields r) = loadCommitsRefreshId v /\
  match outcome r with
  | Completed _ => exists html, renders (history r) = [html]
  | Aborted => renders (history r) = []
  end.
Proof.
  cbv zeta. follow_render.
  all: repeat split; try reflexivity.
  all: eexists; reflexivity.
Qed.

(** X10.  Which document a render produces: the fixed error surface
    whenever the Git executable is unknown, also when no repository is
    known; otherwise the interactive shell, carrying the repositories
    of the repository manager, when there is at least one; otherwise
    the surface with the re-scan button. *)
Theorem body_selection (H : never_rejects env) (gitUnknown : bool) (repos : GitRepoSet)
    (Hgit : forall wa, fst (ask env dataSource_isGitExecutableUnknown wa) = Resolved gitUnknown)
    (Hrepos : forall wa, fst (ask env repoManager_getRepos wa) = Resolved repos) v w :
  exists html,
    outcome (getHtmlForWebview env v w) = Completed html /\
    (gitUnknown = true -> exists colorVars, html_body html = UnableToFindGit colorVars) /\
    (gitUnknown = false -> size repos <> 0%nat ->
     exists st, embedded_initialState html = Some st /\ initial_repos st = repos) /\
    (gitUnknown = false -> size repos = 0%nat ->
     exists colorVars nonce, html_body html = NoRepositories colorVars nonce).
Proof.
  destruct (render_uniform H gitUnknown repos Hgit Hrepos v w)
    as (html & w' & h & Hrun & _ & _ & _ & Hbody).
  exists html. rewrite Hrun. split; [reflexivity|].
  unfold body_chosen in Hbody. split; [|split].
  - intros ->. exact Hbody.
  - intros -> Hsome. destruct (size repos) as [|n] eqn:Hsize; [contradiction|].
    cbn in Hbody. destruct Hbody as (cv & n0 & gs & st & uri & Hb & _ & Hset & _).
    exists st. unfold embedded_initialState. rewrite Hb. split; [reflexivity | exact Hset].
  - intros -> Hnone. rewrite Hnone in Hbody. exact Hbody.
Qed.

(** X11.  In every initial state a render emits, the tags are on the
    right whenever the branch labels are aligned to the graph, and
    avatars are fetched only if the extension state was asked whether
    avatar storage is available (it is asked only when the
    configuration enables avatars). *)
Theorem initial_config_consistent v w html st :
  let r := getHtmlForWebview env v w in
  outcome r = Completed html ->
  embedded_initialState html = Some st ->
  (branchLabelsAlignedToGraph (initial_config st) = true ->
   tagLabelsOnRight (initial_config st) = true) /\
  (fetchAvatars (initial_config st) = true ->
   In extensionState_isAvatarStorageAvailable (asked (history r))).
Proof.
  intros r Hdone Hst.
  destruct (getHtmlForWebview_embeds v w html st Hdone Hst)
    as (_ & _ & _ & Hlabels & Havatars & _).
  split; assumption.
Qed.

(** X12.  The refresh id of a [loadCommits] or [loadRepoInfo] request
    is the one the next render embeds in its initial state, however the
    request's own query ended. *)
Theorem refresh_ids_reach_next_render v w w2 html st :
  (forall refreshId repo branches maxCommits showTags showRemoteBranches
          includeCommitsMentionedByReflogs onlyFollowFirstParent remotes hideRemotes stashes,
     let r := respondToMessage env
                (RequestLoadCommits refreshId repo branches maxCommits showTags
                   showRemoteBranches includeCommitsMentionedByReflogs onlyFollowFirstParent
                   remotes hideRemotes stashes) v w in
     outcome (getHtmlForWebview env (fields r) w2) = Completed html ->
     embedded_initialState html = Some st ->
     initial_loadCommitsRefreshId st = refreshId /\
     initial_loadRepoInfoRefreshId st = loadRepoInfoRefreshId v) /\
  (forall refreshId repo showRemoteBranches hideRemotes,
     let r := respondToMessage env
                (RequestLoadRepoInfo refreshId repo showRemoteBranches hideRemotes) v w in
     outcome (getHtmlForWebview env (fields r) w2) = Completed html ->
     embedded_initialState html = Some st ->
     initial_loadRepoInfoRefreshId st = refreshId /\
     initial_loadCommitsRefreshId st = loadCommitsRefreshId v).
Proof.
  split; intros * Hdone Hst;
    destruct (getHtmlForWebview_embeds _ w2 html st Hdone Hst) as (_ & -> & -> & _);
    clear Hdone Hst; subst r; evaluate; repeat first [step_settled | step_branch];
    split; reflexivity.
Qed.

(** X13.  A change of the repository set that arrives while the panel
    is hidden is ignored, whatever it says; the render that takes place
    when the panel is shown again sets [isGraphViewLoaded] from the
    repositories known by then. *)
Theorem hidden_repo_change_caught_up_on_show (H : never_rejects env) (gitUnknown : bool)
    (repos : GitRepoSet)
    (Hgit : forall wa, fst (ask env dataSource_isGitExecutableUnknown wa) = Resolved gitUnknown)
    (Hrepos : forall wa, fst (ask env repoManager_getRepos wa) = Resolved repos) ev v w w2 :
  panel_visible v = false -> isPanelVisible v = false ->
  let r1 := onDidChangeRepos env ev v w in
  let r2 := onDidChangeViewState env (set_panel_visible true (fields r1)) w2 in
  r1 = {| outcome := Completed tt; fields := v; world := w; history := [] |} /\
  outcome r2 = Completed tt /\
  (exists html, renders (history r2) = [html]) /\
  isGraphViewLoaded (fields r2) = (0 <? size repos)%nat /\
  isPanelVisible (fields r2) = true.
Proof.
  intros Hnow Hrec r1 r2.
  assert (Hr1 : r1 = {| outcome := Completed tt; fields := v; world := w; history := [] |}).
  { subst r1. evaluate. rewrite Hnow. reflexivity. }
  split; [exact Hr1|]. subst r2. rewrite Hr1. cbn [fields].
  destruct (render_uniform H gitUnknown repos Hgit Hrepos (set_panel_visible true v) w2)
    as (html & w' & h & _ & Hupdate & Hrenders & _ & _).
  cbv beta iota zeta delta [onDidChangeViewState mbind mret handler_bind handler_ret
                            this assign negb].
  cbn [panel_visible isPanelVisible set_panel_visible]. rewrite Hrec. cbn [eqb].
  rewrite Hupdate. cbn.
  rewrite app_nil_r, renders_app, Hrenders.
  split; [reflexivity | split; [exists html; reflexivity | split; reflexivity]].
Qed.

(** X14.  When the repository set becomes non-empty while the panel is
    visible and shows no repositories, the callback renders the shell
    with the repositories of the repository manager (not those of the
    event) and with the event's repository as navigation target, and
    posts nothing; delivered once more, the same event no longer
    renders: it posts a [loadRepos] response with the event's
    repositories and target. *)
Theorem repos_appearing_render_once (H : never_rejects env) (repos : GitRepoSet)
    (Hgit : forall wa, fst (ask env dataSource_isGitExecutableUnknown wa) = Resolved false)
    (Hrepos : forall wa, fst (ask env repoManager_getRepos wa) = Resolved repos) ev v w w2 :
  size repos <> 0%nat ->
  panel_visible v = true -> isGraphViewLoaded v = false -> 0 < event_numRepos ev ->
  let r1 := onDidChangeRepos env ev v w in
  let r2 := onDidChangeRepos env ev (fields r1) w2 in
  (exists html st,
     renders (history r1) = [html] /\ embedded_initialState html = Some st /\
     initial_loadViewTo st = event_target ev /\ initial_repos st = repos) /\
  responses (history r1) = [] /\
  isGraphViewLoaded (fields r1) = true /\ loadViewTo (fields r1) = None /\
  renders (history r2) = [] /\
  exists lastActiveRepo,
    responses (history r2) =
      [{| command := "loadRepos";
          body := LoadReposBody (event_repos ev) lastActiveRepo (event_target ev) |}].
Proof.
  intros Hsome Hnow Hloaded Hcount r1 r2.
  assert (Hsize : (0 <? size repos)%nat = true).
  { destruct (size repos); [contradiction | reflexivity]. }
  destruct (render_uniform H false repos Hgit Hrepos (set_loadViewTo (event_target ev) v) w)
    as (html & w' & h & _ & Hupdate & Hrenders & Hposts & Hbody).
  unfold body_chosen in Hbody. rewrite Hsize in Hbody, Hupdate.
  destruct Hbody as (cv & n & gs & st & uri & Hb & Htarget & Hset & _).
  assert (Hr1 : r1 = update env (set_loadViewTo (event_target ev) v) w).
  { subst r1.
    cbv beta iota zeta delta [onDidChangeRepos mbind mret handler_bind handler_ret this
                              assign].
    rewrite Hnow, Hloaded. cbn [negb andb].
    replace (0 <? event_numRepos ev) with true by (symmetry; apply Z.ltb_lt; exact Hcount).
    rewrite andb_false_r. cbn [orb andb]. cbv beta.
    change (match event_loadRepo ev with
            | Some r => Some {| target_repo := r; target_commitDetails := None |}
            | None => None
            end) with (event_target ev).
    rewrite Hupdate. reflexivity. }
  subst r2. rewrite Hr1, Hupdate. cbn [history fields].
  rewrite responses_app, renders_app, Hrenders, Hposts.
  split; [|split; [reflexivity | split; [reflexivity | split; [reflexivity|]]]].
  { exists html, st. unfold embedded_initialState. rewrite Hb.
    repeat split; assumption. }
  cbv beta iota zeta delta [onDidChangeRepos mbind mret handler_bind handler_ret this assign].
  cbn [panel_visible isGraphViewLoaded set_loadViewTo set_isGraphViewLoaded].
  rewrite Hnow. cbn [negb andb].
  rewrite andb_false_r.
  replace (event_numRepos ev =? 0) with false
    by (symmetry; apply Z.eqb_neq; intros Hz; rewrite Hz in Hcount; inversion Hcount).
  cbn [andb orb]. cbv beta.
  change (match event_loadRepo ev with
              | Some r => Some {| target_repo := r; target_commitDetails := None |}
              | None => None
              end) with (event_target ev).
  evaluate. step_resolved H.
  split; [reflexivity | eexists; reflexivity].
Qed.

Lemma string_append_assoc (a b c : string) : (a ++ b) ++ c = a ++ (b ++ c).
Proof.
  induction a as [|x a IH]; [reflexivity|].
  change (String x ((a ++ b) ++ c) = String x (a ++ (b ++ c))). rewrite IH. reflexivity.
Qed.

Lemma string_append_nil_r (a : string) : a ++ "" = a.
Proof.
  induction a as [|x a IH]; [reflexivity|].
  change (String x (a ++ "") = String x a). rewrite IH. reflexivity.
Qed.

(** X15.  The colour loop appends to [colorVars] and [colorParams] one
    entry per colour, in the order of [graphColours], numbered from the
    index it starts at; with no colours it adds nothing. *)
Theorem colour_loop_entries (i : nat) (colours : list string) (vars params : string) :
  colour_loop i colours (vars, params) =
  (vars ++ joined (imap (fun k c => colour_var (i + k) c) colours),
   params ++ joined (imap (fun k _ => colour_param (i + k)) colours)).
Proof.
  revert i vars params. induction colours as [|c rest IH]; intros i vars params.
  - cbn [colour_loop imap joined fold_right]. rewrite !string_append_nil_r. reflexivity.
  - cbn [colour_loop imap joined fold_right fst snd]. rewrite IH.
    fold (colour_var i c). fold (colour_param i).
    rewrite !string_append_assoc, Nat.add_0_r.
    assert (Hshift : forall k, (S i + k = i + S k)%nat) by (intros k; lia).
    unfold joined.
    rewrite (imap_ext (fun k c0 => colour_var (S i + k) c0)
               ((fun k c0 => colour_var (i + k) c0) ∘ S) rest)
      by (intros k x _; unfold compose; rewrite Hshift; reflexivity).
    rewrite (imap_ext (fun k (_ : string) => colour_param (S i + k))
               ((fun k (_ : string) => colour_param (i + k)) ∘ S) rest)
      by (intros k x _; unfold compose; rewrite Hshift; reflexivity).
    reflexivity.
Qed.

End RenderMore.

(** ** Properties of the panel's life cycle *)

Section SessionProps.

Context (env : Environment).

(** X16.  [createOrShow] never makes a second panel: when one exists
    it creates nothing, registers nothing and renders nothing; it keeps
    the panel, changes none of its fields except [loadViewTo] (and that
    only when the panel is hidden), and reveals it in the column of the
    active editor as its last step. *)
Theorem createOrShow_reveals_existing extensionPath target column visible v w :
  let r := createOrShow env extensionPath target column visible (Some v) w in
  creations (session_history r) = [] /\
  ~ In avatarManager_registerView (session_history r) /\
  renders (view_steps (session_history r)) = [] /\
  currentPanel r =
    Some (if isPanelVisible v then v else set_loadViewTo target v) /\
  match session_outcome r with
  | Completed _ =>
      reveals (session_history r) = [column] /\
      last (session_history r) = Some (panel_reveal column)
  | Aborted => reveals (session_history r) = []
  end.
Proof.
  cbv zeta. evaluate_session.
  destruct (isPanelVisible v); evaluate; [destruct target; evaluate|];
    repeat step_settled; cbn.
  all: repeat split; try reflexivity.
  all: intros Hin; repeat (destruct Hin as [Hin|Hin]; [discriminate|]); exact Hin.
Qed.

(** X17.  A navigation target given to [createOrShow] while the panel
    is hidden is sent nowhere at that moment: it replaces whatever
    target was pending (also when it is [null]) and is delivered by the
    render that takes place when the panel is shown, after which no
    target is pending. *)
Theorem hidden_target_delivered_on_show (H : never_rejects env) (repos : GitRepoSet)
    (Hgit : forall wa, fst (ask env dataSource_isGitExecutableUnknown wa) = Resolved false)
    (Hrepos : forall wa, fst (ask env repoManager_getRepos wa) = Resolved repos)
    extensionPath target column visible v w w2 :
  size repos <> 0%nat -> isPanelVisible v = false ->
  let r := createOrShow env extensionPath target column visible (Some v) w in
  let v' := set_loadViewTo target v in
  let shown := onDidChangeViewState env (set_panel_visible true v') w2 in
  currentPanel r = Some v' /\
  view_steps (session_history r) = [] /\
  exists html st,
    renders (history shown) = [html] /\
    embedded_initialState html = Some st /\
    initial_loadViewTo st = target /\
    loadViewTo (fields shown) = None /\
    isPanelVisible (fields shown) = true.
Proof.
  intros Hsome Hrec. cbv zeta.
  assert (Hsize : (0 <? size repos)%nat = true).
  { destruct (size repos); [contradiction | reflexivity]. }
  split; [|split].
  - evaluate_session. rewrite Hrec. reflexivity.
  - evaluate_session. rewrite Hrec. reflexivity.
  - destruct (render_uniform env H false repos Hgit Hrepos
                (set_panel_visible true (set_loadViewTo target v)) w2)
      as (html & w' & h & _ & Hupdate & Hrenders & _ & Hbody).
    unfold body_chosen in Hbody. rewrite Hsize in Hbody, Hupdate.
    destruct Hbody as (cv & n & gs & st & uri & Hb & Htarget & _).
    exists html, st.
    cbv beta iota zeta delta [onDidChangeViewState mbind mret handler_bind handler_ret
                              this assign negb].
    cbn [panel_visible isPanelVisible set_panel_visible set_loadViewTo]. rewrite Hrec.
    cbn [eqb]. rewrite Hupdate. cbn.
    rewrite app_nil_r, renders_app, Hrenders.
    unfold embedded_initialState. rewrite Hb.
    repeat split; try reflexivity. exact Htarget.
Qed.

(** X18.  While the panel is visible, [createOrShow] leaves its fields
    alone: a navigation target is pushed to the front end in one
    [loadRepos] response, with the repositories of the repository
    manager and the last active repository; without a target nothing
    happens but the reveal. *)
Theorem visible_target_pushed (H : never_rejects env) extensionPath column visible v w :
  isPanelVisible v = true ->
  (forall t,
     let r := createOrShow env extensionPath (Some t) column visible (Some v) w in
     exists repos w1 lastActiveRepo w2,
       ask env repoManager_getRepos w = (Resolved repos, w1) /\
       ask env extensionState_getLastActiveRepo w1 = (Resolved lastActiveRepo, w2) /\
       currentPanel r = Some v /\
       responses (view_steps (session_history r)) =
         [{| command := "loadRepos";
             body := LoadReposBody repos lastActiveRepo (Some t) |}] /\
       reveals (session_history r) = [column]) /\
  (let r := createOrShow env extensionPath None column visible (Some v) w in
   currentPanel r = Some v /\ session_world r = w /\
   session_history r = [panel_reveal column]).
Proof.
  intros Hrec. cbv zeta. split.
  - intros t.
    destruct (proj2 H repoManager_getRepos w) as (repos & w1 & Hrepos).
    destruct (proj2 H extensionState_getLastActiveRepo w1) as (lastActive & w2 & Hlast).
    exists repos, w1, lastActive, w2.
    split; [exact Hrepos | split; [exact Hlast|]].
    evaluate_session. rewrite Hrec. evaluate. rewrite Hrepos. evaluate.
    rewrite Hlast. evaluate. cbn. repeat split; reflexivity.
  - evaluate_session. rewrite Hrec. evaluate. repeat split; reflexivity.
Qed.

Lemma creations_in_view (l : list Step) : creations (map in_view l) = [].
Proof. induction l as [|x l IH]; [reflexivity | exact IH]. Qed.

Lemma reveals_in_view (l : list Step) : reveals (map in_view l) = [].
Proof. induction l as [|x l IH]; [reflexivity | exact IH]. Qed.

Lemma view_steps_in_view (l : list Step) : view_steps (map in_view l) = l.
Proof. induction l as [|x l IH]; [reflexivity | cbn; f_equal; exact IH]. Qed.

(** X19.  Disposing stops the file watcher and leaves no current
    panel, so the next [createOrShow] constructs one: exactly one panel
    is created, in the active editor's column or in column one, and not
    revealed again; its first render carries the given target and the
    refresh ids [0]; the new view has no current repository and no
    pending target, whatever the disposed view held; the last step logs
    the creation. *)
Theorem new_panel_after_dispose (H : never_rejects env) (repos : GitRepoSet)
    (Hgit : forall wa, fst (ask env dataSource_isGitExecutableUnknown wa) = Resolved false)
    (Hrepos : forall wa, fst (ask env repoManager_getRepos wa) = Resolved repos)
    extensionPath target column visible old w0 w :
  size repos <> 0%nat ->
  let closed := dispose env old w0 in
  let r := createOrShow env extensionPath target column visible (currentPanel closed) w in
  In (in_view {| at_view := old; event := repoFileWatcher_stop |}) (session_history closed) /\
  exists v' html st config,
    session_outcome r = Completed tt /\
    currentPanel r = Some v' /\
    creations (session_history r) =
      [window_createWebviewPanel (column_or_One column) [extensionPath; "media"] config] /\
    reveals (session_history r) = [] /\
    renders (view_steps (session_history r)) = [html] /\
    embedded_initialState html = Some st /\
    initial_loadViewTo st = target /\
    initial_loadRepoInfoRefreshId st = 0 /\
    initial_loadCommitsRefreshId st = 0 /\
    loadViewTo v' = None /\ isGraphViewLoaded v' = true /\
    isPanelVisible v' = true /\ currentRepo v' = None /\
    last (session_history r) = Some (logger_log (created_message target)).
Proof.
  intros Hsome. cbv zeta.
  assert (Hsize : (0 <? size repos)%nat = true).
  { destruct (size repos); [contradiction | reflexivity]. }
  split; [cbn; auto|].
  cbv beta iota zeta delta [dispose currentPanel createOrShow constructor query
                            start_query await mbind handler_bind].
  destruct (proj2 H config_getConfig w) as (config & w1 & Hconfig).
  rewrite Hconfig. cbn [outcome fields world history app].
  destruct (render_uniform env H false repos Hgit Hrepos
              (initial_fields extensionPath target visible) w1)
    as (html & w' & h & _ & Hupdate & Hrenders & _ & Hbody).
  unfold body_chosen in Hbody. rewrite Hsize in Hbody, Hupdate.
  destruct Hbody as (cv & n & gs & st & uri & Hb & Htarget & _ & Hid1 & Hid2).
  rewrite Hupdate. cbn [outcome fields world history session_outcome session_history].
  eexists _, html, st, config.
  split; [reflexivity|]. split; [reflexivity|].
  cbn [map app].
  pose proof (creations_in_view (h ++ [{| at_view := set_loadViewTo None
                (set_isGraphViewLoaded true (initial_fields extensionPath target visible));
                event := set_webview_html html |}])) as Hcreated.
  pose proof (reveals_in_view (h ++ [{| at_view := set_loadViewTo None
                (set_isGraphViewLoaded true (initial_fields extensionPath target visible));
                event := set_webview_html html |}])) as Hrevealed.
  pose proof (view_steps_in_view (h ++ [{| at_view := set_loadViewTo None
                (set_isGraphViewLoaded true (initial_fields extensionPath target visible));
                event := set_webview_html html |}])) as Hsteps.
  unfold creations, reveals, view_steps in *.
  cbn [List.filter flat_map app].
  rewrite List.filter_app, !flat_map_app, Hcreated, Hrevealed, Hsteps.
  cbn [List.filter flat_map app].
  split; [reflexivity|]. split; [reflexivity|]. split.
  { clear Hcreated Hrevealed Hsteps Hupdate Hb. rewrite app_nil_r.
    match goal with |- renders (?a :: ?l) = _ => change (renders ([a] ++ l)%list = [html]) end.
    rewrite !renders_app, Hrenders. reflexivity. }
  split; [unfold embedded_initialState; rewrite Hb; reflexivity|].
  split; [exact Htarget|]. split; [exact Hid1|]. split; [exact Hid2|].
  repeat (split; [reflexivity|]).
  rewrite !app_comm_cons. apply last_snoc.
Qed.

End SessionProps.

(** ** The further properties at concrete inputs *)

Lemma error_passed_through_witness :
  let env := failing (fun _ => true) in
  let msg := RequestCheckoutCommit "/repo" "1a2b3c" in
  let resp := {| command := "checkoutCommit"; body := WithError (Some "failed") |} in
  let r := respondToMessage env msg fresh_view tt in
  In resp (responses (history r)) /\
  plain_error (body resp) = Some (Some "failed") /\
  exists op w',
    attempts (history r) = [op] /\
    perform env op tt = (Resolved (Some "failed"), w') /\
    responses (history r) = [resp] /\
    command resp = request_command msg.
Proof.
  cbv zeta. split; [left; reflexivity|]. split; [reflexivity|].
  exact (error_passed_through (failing (fun _ => true))
           (RequestCheckoutCommit "/repo" "1a2b3c") fresh_view tt
           {| command := "checkoutCommit"; body := WithError (Some "failed") |}
           (Some "failed") (or_introl eq_refl) eq_refl).
Defined.

Lemma repeated_load_keeps_watcher_witness :
  let r1 := respondToMessage quiet_env (RequestLoadRepoInfo 1 "/repo" true [])
              fresh_view tt in
  let r2 := respondToMessage quiet_env (RequestLoadRepoInfo 2 "/repo" false ["origin"])
              (fields r1) tt in
  never_rejects quiet_env /\
  currentRepo (fields r1) = Some "/repo" /\
  ~ In (Asked (extensionState_setLastActiveRepo "/repo")) (events (history r2)) /\
  ~ In (repoFileWatcher_start "/repo") (events (history r2)) /\
  currentRepo (fields r2) = Some "/repo".
Proof.
  split; [exact quiet_env_never_rejects|].
  exact (repeated_load_keeps_watcher quiet_env quiet_env_never_rejects fresh_view tt tt
           1 2 "/repo" true false [] ["origin"]).
Defined.

Lemma load_after_hide_restarts_watcher_witness :
  let v := set_panel_visible false (set_currentRepo (Some "/repo") fresh_view) in
  let r1 := onDidChangeViewState quiet_env v tt in
  let r2 := respondToMessage quiet_env (RequestLoadRepoInfo 7 "/repo" true [])
              (fields r1) tt in
  never_rejects quiet_env /\
  isPanelVisible v = true /\ panel_visible v = false /\
  currentRepo (fields r1) = None /\
  In (Asked (extensionState_setLastActiveRepo "/repo")) (events (history r2)) /\
  In (repoFileWatcher_start "/repo") (events (history r2)) /\
  currentRepo (fields r2) = Some "/repo".
Proof.
  split; [exact quiet_env_never_rejects|]. split; [reflexivity|]. split; [reflexivity|].
  exact (load_after_hide_restarts_watcher quiet_env quiet_env_never_rejects
           (set_panel_visible false (set_currentRepo (Some "/repo") fresh_view)) tt tt
           7 "/repo" true [] eq_refl eq_refl).
Defined.

Lemma uncommitted_has_no_code_review_witness :
  let r := respondToMessage quiet_env
             (RequestCommitDetails "/repo" "*" true None None false) fresh_view tt in
  let r' := respondToMessage quiet_env
              (RequestCompareCommits "/repo" "1a2b3c" "*" "1a2b3c" "*" true) fresh_view tt in
  never_rejects quiet_env /\
  (In (dataSource_getUncommittedDetails "/repo") (asked (history r)) /\
   (forall id, ~ In (extensionState_getCodeReview "/repo" id) (asked (history r))) /\
   exists data avatar,
     responses (history r) =
       [{| command := "commitDetails";
           body := CommitDetailsBody data avatar None false |}]) /\
  (asked (history r') = [dataSource_getCommitComparison "/repo" "1a2b3c" "*"] /\
   (forall id, ~ In (extensionState_getCodeReview "/repo" id) (asked (history r'))) /\
   exists data w',
     ask quiet_env (dataSource_getCommitComparison "/repo" "1a2b3c" "*") tt =
       (Resolved data, w') /\
     responses (history r') =
       [{| command := "compareCommits";
           body := CompareCommitsBody "1a2b3c" "*" data None true |}]).
Proof.
  split; [exact quiet_env_never_rejects|]. split.
  - exact (proj1 (uncommitted_has_no_code_review quiet_env quiet_env_never_rejects
                    fresh_view tt) "/repo" true None None false).
  - exact (proj2 (uncommitted_has_no_code_review quiet_env quiet_env_never_rejects
                    fresh_view tt) "/repo" "1a2b3c" "*" "1a2b3c" true).
Defined.

Lemma createPullRequest_without_push_witness :
  let env := failing (fun _ => true) in
  let open_request := utils_createPullRequest JsNull "ada" "graph" "feature" in
  let r := respondToMessage env
             (RequestCreatePullRequest "/repo" JsNull "origin" "ada" "graph" "feature" false)
             fresh_view tt in
  perform env open_request tt = (Resolved (Some "failed"), tt) /\
  outcome r = Completed tt /\
  attempts (history r) = [open_request] /\
  responses (history r) =
    [{| command := "createPullRequest";
        body := CreatePullRequestBody false [None; Some "failed"] |}].
Proof.
  split; [reflexivity|].
  exact (createPullRequest_without_push (failing (fun _ => true)) fresh_view tt
           "/repo" JsNull "origin" "ada" "graph" "feature" (Some "failed") tt eq_refl).
Defined.

Lemma dependent_step_follows_success_witness :
  let bad op := match op with dataSource_pushTag _ _ _ => true | _ => false end in
  let env := failing bad in
  let first := dataSource_addTag "/repo" "v1.0" "1a2b3c" true "" in
  let second := dataSource_pushTag "/repo" "v1.0" "origin" in
  let r := respondToMessage env
             (RequestAddTag "/repo" "v1.0" "1a2b3c" true "" (Some "origin")) fresh_view tt in
  perform env first tt = (Resolved None, tt) /\
  perform env second tt = (Resolved (Some "failed"), tt) /\
  attempts (history r) = [first; second] /\
  responses (history r) =
    [{| command := "addTag"; body := WithErrors [None; Some "failed"] |}].
Proof.
  cbv zeta. split; [reflexivity|]. split; [reflexivity|].
  exact (proj1 (dependent_step_follows_success
                  (failing (fun op => match op with
                                      | dataSource_pushTag _ _ _ => true
                                      | _ => false
                                      end))
                  fresh_view tt)
           "/repo" "v1.0" "1a2b3c" true "" (Some "origin") tt eq_refl
           (Some "failed") tt eq_refl).
Defined.

Lemma body_selection_witness :
  let env := one_repo_env false in
  let repos : GitRepoSet := {[ "/repo" := JsNull ]} in
  never_rejects env /\
  (forall wa, fst (ask env dataSource_isGitExecutableUnknown wa) = Resolved false) /\
  (forall wa, fst (ask env repoManager_getRepos wa) = Resolved repos) /\
  size repos <> 0%nat /\
  exists html st,
    outcome (getHtmlForWebview env fresh_view tt) = Completed html /\
    embedded_initialState html = Some st /\ initial_repos st = repos.
Proof.
  cbv zeta. split; [exact (one_repo_env_never_rejects false)|].
  split; [intros wa; reflexivity|]. split; [intros wa; reflexivity|].
  split; [exact one_repo_size|].
  destruct (body_selection (one_repo_env false) (one_repo_env_never_rejects false) false
              {[ "/repo" := JsNull ]} (fun wa => eq_refl) (fun wa => eq_refl) fresh_view tt)
    as (html & Hout & _ & Hshell & _).
  destruct (Hshell eq_refl one_repo_size) as (st & Hst & Hsame).
  exists html, st. split; [exact Hout | split; [exact Hst | exact Hsame]].
Defined.

Lemma initial_config_consistent_witness :
  let r := getHtmlForWebview aligned_avatars_env fresh_view tt in
  exists html st,
    outcome r = Completed html /\
    embedded_initialState html = Some st /\
    branchLabelsAlignedToGraph (initial_config st) = true /\
    fetchAvatars (initial_config st) = true /\
    tagLabelsOnRight (initial_config st) = true /\
    In extensionState_isAvatarStorageAvailable (asked (history r)).
Proof.
  cbv zeta. with_render (getHtmlForWebview aligned_avatars_env fresh_view tt).
  match goal with
  | |- ?o = Completed ?html /\ ?e = Some ?st /\ _ =>
      assert (Hout : o = Completed html) by (vm_compute; reflexivity);
      assert (Hst : e = Some st) by (vm_compute; reflexivity);
      destruct (initial_config_consistent aligned_avatars_env fresh_view tt html st
                  Hout Hst) as [Hlabels Havatars]
  end.
  split; [exact Hout|]. split; [exact Hst|].
  split; [reflexivity|]. split; [reflexivity|].
  split; [exact (Hlabels eq_refl) | exact (Havatars eq_refl)].
Defined.

Lemma refresh_ids_reach_next_render_witness :
  let env := one_repo_env false in
  let r := respondToMessage env
             (RequestLoadCommits 5 "/repo" None 300 true true false false [] [] JsNull)
             fresh_view tt in
  exists html st,
    outcome (getHtmlForWebview env (fields r) tt) = Completed html /\
    embedded_initialState html = Some st /\
    initial_loadCommitsRefreshId st = 5 /\
    initial_loadRepoInfoRefreshId st = 0.
Proof.
  cbv zeta.
  with_render (getHtmlForWebview (one_repo_env false)
                 (fields (respondToMessage (one_repo_env false)
                            (RequestLoadCommits 5 "/repo" None 300 true true false false
                               [] [] JsNull)
                            fresh_view tt)) tt).
  split; [vm_compute; reflexivity|]. split; [vm_compute; reflexivity|].
  refine (proj1 (refresh_ids_reach_next_render (one_repo_env false) fresh_view tt tt _ _)
            5 "/repo" None 300 true true false false [] [] JsNull _ _);
    vm_compute; reflexivity.
Defined.

Lemma hidden_repo_change_caught_up_on_show_witness :
  let env := one_repo_env false in
  let repos : GitRepoSet := {[ "/repo" := JsNull ]} in
  let ev := {| event_repos := repos; event_numRepos := 1; event_loadRepo := None |} in
  let v := set_isPanelVisible false (set_panel_visible false fresh_view) in
  let r1 := onDidChangeRepos env ev v tt in
  let r2 := onDidChangeViewState env (set_panel_visible true (fields r1)) tt in
  never_rejects env /\
  (forall wa, fst (ask env dataSource_isGitExecutableUnknown wa) = Resolved false) /\
  (forall wa, fst (ask env repoManager_getRepos wa) = Resolved repos) /\
  panel_visible v = false /\ isPanelVisible v = false /\
  r1 = {| outcome := Completed tt; fields := v; world := tt; history := [] |} /\
  outcome r2 = Completed tt /\
  (exists html, renders (history r2) = [html]) /\
  isGraphViewLoaded (fields r2) = (0 <? size repos)%nat /\
  isPanelVisible (fields r2) = true.
Proof.
  cbv zeta. split; [exact (one_repo_env_never_rejects false)|].
  split; [intros wa; reflexivity|]. split; [intros wa; reflexivity|].
  split; [reflexivity|]. split; [reflexivity|].
  exact (hidden_repo_change_caught_up_on_show (one_repo_env false)
           (one_repo_env_never_rejects false) false {[ "/repo" := JsNull ]}
           (fun wa => eq_refl) (fun wa => eq_refl)
           {| event_repos := {[ "/repo" := JsNull ]}; event_numRepos := 1;
              event_loadRepo := None |}
           (set_isPanelVisible false (set_panel_visible false fresh_view)) tt tt
           eq_refl eq_refl).
Defined.

Lemma repos_appearing_render_once_witness :
  let env := one_repo_env false in
  let repos : GitRepoSet := {[ "/repo" := JsNull ]} in
  let ev := {| event_repos := repos; event_numRepos := 1;
               event_loadRepo := Some "/repo" |} in
  let r1 := onDidChangeRepos env ev fresh_view tt in
  let r2 := onDidChangeRepos env ev (fields r1) tt in
  never_rejects env /\
  (forall wa, fst (ask env dataSource_isGitExecutableUnknown wa) = Resolved false) /\
  (forall wa, fst (ask env repoManager_getRepos wa) = Resolved repos) /\
  size repos <> 0%nat /\
  panel_visible fresh_view = true /\ isGraphViewLoaded fresh_view = false /\
  0 < event_numRepos ev /\
  (exists html st,
     renders (history r1) = [html] /\ embedded_initialState html = Some st /\
     initial_loadViewTo st = event_target ev /\ initial_repos st = repos) /\
  responses (history r1) = [] /\
  isGraphViewLoaded (fields r1) = true /\ loadViewTo (fields r1) = None /\
  renders (history r2) = [] /\
  exists lastActiveRepo,
    responses (history r2) =
      [{| command := "loadRepos";
          body := LoadReposBody (event_repos ev) lastActiveRepo (event_target ev) |}].
Proof.
  cbv zeta. split; [exact (one_repo_env_never_rejects false)|].
  split; [intros wa; reflexivity|]. split; [intros wa; reflexivity|].
  split; [exact one_repo_size|].
  split; [reflexivity|]. split; [reflexivity|]. split; [reflexivity|].
  exact (repos_appearing_render_once (one_repo_env false)
           (one_repo_env_never_rejects false) {[ "/repo" := JsNull ]}
           (fun wa => eq_refl) (fun wa => eq_refl)
           {| event_repos := {[ "/repo" := JsNull ]}; event_numRepos := 1;
              event_loadRepo := Some "/repo" |}
           fresh_view tt tt one_repo_size eq_refl eq_refl eq_refl).
Defined.

Lemma hidden_target_delivered_on_show_witness :
  let env := one_repo_env false in
  let repos : GitRepoSet := {[ "/repo" := JsNull ]} in
  let target := Some {| target_repo := "/repo"; target_commitDetails := None |} in
  let v := set_isPanelVisible false (set_panel_visible false fresh_view) in
  let r := createOrShow env "/ext" target (Some 2) true (Some v) tt in
  let v' := set_loadViewTo target v in
  let shown := onDidChangeViewState env (set_panel_visible true v') tt in
  never_rejects env /\
  (forall wa, fst (ask env dataSource_isGitExecutableUnknown wa) = Resolved false) /\
  (forall wa, fst (ask env repoManager_getRepos wa) = Resolved repos) /\
  size repos <> 0%nat /\ isPanelVisible v = false /\
  currentPanel r = Some v' /\
  view_steps (session_history r) = [] /\
  exists html st,
    renders (history shown) = [html] /\
    embedded_initialState html = Some st /\
    initial_loadViewTo st = target /\
    loadViewTo (fields shown) = None /\
    isPanelVisible (fields shown) = true.
Proof.
  cbv zeta. split; [exact (one_repo_env_never_rejects false)|].
  split; [intros wa; reflexivity|]. split; [intros wa; reflexivity|].
  split; [exact one_repo_size|]. split; [reflexivity|].
  exact (hidden_target_delivered_on_show (one_repo_env false)
           (one_repo_env_never_rejects false) {[ "/repo" := JsNull ]}
           (fun wa => eq_refl) (fun wa => eq_refl) "/ext"
           (Some {| target_repo := "/repo"; target_commitDetails := None |}) (Some 2) true
           (set_isPanelVisible false (set_panel_visible false fresh_view)) tt tt
           one_repo_size eq_refl).
Defined.

Lemma visible_target_pushed_witness :
  let env := one_repo_env false in
  let t := {| target_repo := "/repo"; target_commitDetails := None |} in
  let r := createOrShow env "/ext" (Some t) (Some 2) true (Some fresh_view) tt in
  never_rejects env /\ isPanelVisible fresh_view = true /\
  exists repos w1 lastActiveRepo w2,
    ask env repoManager_getRepos tt = (Resolved repos, w1) /\
    ask env extensionState_getLastActiveRepo w1 = (Resolved lastActiveRepo, w2) /\
    currentPanel r = Some fresh_view /\
    responses (view_steps (session_history r)) =
      [{| command := "loadRepos";
          body := LoadReposBody repos lastActiveRepo (Some t) |}] /\
    reveals (session_history r) = [Some 2].
Proof.
  cbv zeta. split; [exact (one_repo_env_never_rejects false)|]. split; [reflexivity|].
  exact (proj1 (visible_target_pushed (one_repo_env false)
                  (one_repo_env_never_rejects false) "/ext" (Some 2) true fresh_view tt
                  eq_refl)
           {| target_repo := "/repo"; target_commitDetails := None |}).
Defined.

Lemma new_panel_after_dispose_witness :
  let env := one_repo_env false in
  let repos : GitRepoSet := {[ "/repo" := JsNull ]} in
  let target := Some {| target_repo := "/repo"; target_commitDetails := None |} in
  let closed := dispose env fresh_view tt in
  let r := createOrShow env "/ext" target None true (currentPanel closed) tt in
  never_rejects env /\
  (forall wa, fst (ask env dataSource_isGitExecutableUnknown wa) = Resolved false) /\
  (forall wa, fst (ask env repoManager_getRepos wa) = Resolved repos) /\
  size repos <> 0%nat /\
  In (in_view {| at_view := fresh_view; event := repoFileWatcher_stop |})
     (session_history closed) /\
  exists v' html st config,
    session_outcome r = Completed tt /\
    currentPanel r = Some v' /\
    creations (session_history r) =
      [window_createWebviewPanel ViewColumn_One ["/ext"; "media"] config] /\
    reveals (session_history r) = [] /\
    renders (view_steps (session_history r)) = [html] /\
    embedded_initialState html = Some st /\
    initial_loadViewTo st = target /\
    initial_loadRepoInfoRefreshId st = 0 /\
    initial_loadCommitsRefreshId st = 0 /\
    loadViewTo v' = None /\ isGraphViewLoaded v' = true /\
    isPanelVisible v' = true /\ currentRepo v' = None /\
    last (session_history r) =
      Some (logger_log "Created Git Graph View (active repo: /repo)").
Proof.
  cbv zeta. split; [exact (one_repo_env_never_rejects false)|].
  split; [intros wa; reflexivity|]. split; [intros wa; reflexivity|].
  split; [exact one_repo_size|].
  exact (new_panel_after_dispose (one_repo_env false)
           (one_repo_env_never_rejects false) {[ "/repo" := JsNull ]}
           (fun wa => eq_refl) (fun wa => eq_refl) "/ext"
           (Some {| target_repo := "/repo"; target_commitDetails := None |}) None true
           fresh_view tt tt one_repo_size).
Defined.
